(** * workspace_order: the publication-order listing of the workspace

    A verification development for [scripts/workspace_order.py].  The
    script walks the hard-coded list [ORDERED_PATHS]; for every entry it
    looks for [<entry>/package.json], skips the entry when that is not a
    regular file, and otherwise decodes the file as JSON, fetches the
    [name] key (falling back to the entry itself) and prints
    [name|entry].

    The embedding is shallow.  Python objects that the JSON decoder can
    return are an inductive type; the process state (file system, the
    module global, what has been written to standard output) is threaded
    through a state-and-exception monad.  [json.loads], the built-in
    [repr] and the encoder behind standard output belong to the
    interpreter, not to the repository, and are section variables; a file
    is given with what reading it as text yields, the text or the
    exception. *)

From Stdlib Require Import ZArith String Ascii List DecimalString.
From stdpp Require Import base option strings list gmap.

Local Open Scope string_scope.
Local Open Scope list_scope.

(** ** Python values returned by the JSON decoder *)

Section PythonValues.

(** Python's [float] objects.  The script never inspects one, so
    their representation is left open. *)
Context {float : Type}.

(** What [json.loads] can return: [None], [bool], [int], [float],
    [str], [list], [dict].  A [dict] keeps its keys in insertion
    order and holds every key once. *)
#[warnings="-register-all"]
Inductive value : Type :=
| VNone
| VBool (b : bool)
| VInt (n : Z)
| VFloat (x : float)
| VStr (s : string)
| VList (items : list value)
| VDict (entries : list (string * value)).

(** [type(v).__name__] *)
Definition type_name (v : value) : string :=
  match v with
  | VNone => "NoneType"
  | VBool _ => "bool"
  | VInt _ => "int"
  | VFloat _ => "float"
  | VStr _ => "str"
  | VList _ => "list"
  | VDict _ => "dict"
  end.

(** Key lookup in a [dict]. *)
Fixpoint dict_lookup (key : string) (entries : list (string * value))
  : option value :=
  match entries with
  | [] => None
  | (k, v) :: rest =>
      if String.eqb k key then Some v else dict_lookup key rest
  end.

(** [d.get(key, default)] *)
Definition dict_get (entries : list (string * value)) (key : string)
    (default : value) : value :=
  match dict_lookup key entries with
  | Some v => v
  | None => default
  end.

(** [d[key] = v]: an existing key keeps its position. *)
Fixpoint dict_set (key : string) (v : value)
    (entries : list (string * value)) : list (string * value) :=
  match entries with
  | [] => [(key, v)]
  | (k, w) :: rest =>
      if String.eqb k key then (k, v) :: rest
      else (k, w) :: dict_set key v rest
  end.

End PythonValues.

Arguments value : clear implicits.

(** ** Exceptions, results, process state *)

(** The exceptions that the calls made by the script can raise. *)
Inductive exn : Type :=
| JSONDecodeError (msg : string)
| AttributeError (msg : string)
| FileNotFoundError (path : string)
| IsADirectoryError (path : string)
| UnicodeDecodeError (msg : string)
| UnicodeEncodeError (msg : string).

(** How a computation ends: it returns, or an exception leaves it. *)
Inductive outcome (A : Type) : Type :=
| Returned (a : A)
| Raised (e : exn).

Arguments Returned {A} a.
Arguments Raised {A} e.

(** What is found at a path of the file system, symbolic links
    followed: a directory, or a regular file.  A regular file is given
    with what [Path.read_text] yields for it: its text (the bytes
    decoded, line endings translated to a line feed), or the exception
    raised when the bytes do not decode. *)
Inductive node : Type :=
| Directory
| Regular (content : outcome string).

(** The state a run can observe or change: the file system, the list
    object bound to the module global [ORDERED_PATHS], and what has
    been written to standard output so far: one entry per [print] call
    that went through, holding its text; [print] ends each with a line
    feed. *)
Record world : Type := World {
  files : gmap string node;
  ordered_paths : list string;
  stdout : list string
}.

(** Computations: state passing, with exceptions.  The state reached
    when an exception is raised is kept: what was printed stays
    printed. *)
Definition M (A : Type) : Type := world → world * outcome A.

Definition ret {A} (a : A) : M A := λ w, (w, Returned a).

Definition raise {A} (e : exn) : M A := λ w, (w, Raised e).

Definition bind {A B} (m : M A) (k : A → M B) : M B :=
  λ w, match m w with
       | (w', Returned a) => k a w'
       | (w', Raised e) => (w', Raised e)
       end.

(** [x ← m; k] and [m;; k] are stdpp's notations for [bind]. *)
#[global] Instance M_ret : MRet M := @ret.
#[global] Instance M_bind : MBind M := λ A B k m, bind m k.

(** ** Text: lines, and UTF-8

    Python text is held as the bytes of its UTF-8 form.  A lone
    surrogate, which a JSON [\u] escape can put into a [str], is held as
    the three bytes that the UTF-8 scheme gives its code point; strict
    UTF-8, which files and standard output are taken to use in the
    examples, has no such bytes. *)

Definition LF : ascii := "010"%char.
Definition CR : ascii := "013"%char.

(** [text.split("\n")]: the pieces of [s] between its line feeds. *)
Fixpoint split_lf (s : string) : list string :=
  match s with
  | EmptyString => [EmptyString]
  | String c r =>
      if Ascii.eqb c LF then EmptyString :: split_lf r
      else match split_lf r with
           | p :: ps => String c p :: ps
           | [] => [String c EmptyString]
           end
  end.

(** [s] holds a line feed. *)
Fixpoint has_lf (s : string) : bool :=
  match s with
  | EmptyString => false
  | String c r => Ascii.eqb c LF || has_lf r
  end.

(** The stream that the [print] calls with the texts [records] leave
    on standard output: each text, then a line feed. *)
Fixpoint stdout_text (records : list string) : string :=
  match records with
  | [] => EmptyString
  | r :: rest => r +:+ String LF (stdout_text rest)
  end.

(** The lines of that stream: a text that holds line feeds gives
    several. *)
Definition output_lines (records : list string) : list string :=
  flat_map split_lf records.

(** A continuation byte of UTF-8. *)
Definition is_cont (c : ascii) : bool :=
  ((128 <=? nat_of_ascii c) && (nat_of_ascii c <=? 191))%nat.

Definition in_range (lo hi : nat) (c : ascii) : bool :=
  ((lo <=? nat_of_ascii c) && (nat_of_ascii c <=? hi))%nat.

(** Well-formed strict UTF-8: shortest forms only, no surrogate, nothing
    above U+10FFFF. *)
Fixpoint utf8_valid (s : list ascii) : bool :=
  match s with
  | [] => true
  | b0 :: r =>
      if in_range 0 127 b0 then utf8_valid r
      else if in_range 194 223 b0 then
        match r with
        | b1 :: r1 => is_cont b1 && utf8_valid r1
        | _ => false
        end
      else if in_range 224 239 b0 then
        match r with
        | b1 :: b2 :: r2 =>
            (if in_range 224 224 b0 then in_range 160 191 b1
             else if in_range 237 237 b0 then in_range 128 159 b1
             else is_cont b1)
            && is_cont b2 && utf8_valid r2
        | _ => false
        end
      else if in_range 240 244 b0 then
        match r with
        | b1 :: b2 :: b3 :: r3 =>
            (if in_range 240 240 b0 then in_range 144 191 b1
             else if in_range 244 244 b0 then in_range 128 143 b1
             else is_cont b1)
            && is_cont b2 && is_cont b3 && utf8_valid r3
        | _ => false
        end
      else false
  end.

(** Universal newlines, as text mode applies them on reading: [CR LF]
    and a lone [CR] become [LF]. *)
Fixpoint translate_newlines (s : list ascii) : list ascii :=
  match s with
  | [] => []
  | c :: r =>
      if Ascii.eqb c CR then
        LF :: match r with
              | c' :: r' =>
                  if Ascii.eqb c' LF then translate_newlines r'
                  else translate_newlines r
              | [] => []
              end
      else c :: translate_newlines r
  end.

(** What [Path.read_text] yields for a file with the bytes [data] under
    a UTF-8 locale.  Python's message also names the byte, its position
    and the reason. *)
Definition read_utf8 (data : string) : outcome string :=
  let bytes := list_ascii_of_string data in
  if utf8_valid bytes
  then Returned (string_of_list_ascii (translate_newlines bytes))
  else Raised (UnicodeDecodeError "'utf-8' codec can't decode byte").

(** The text holds a surrogate: the byte 237 followed by one of 160 to
    191. *)
Fixpoint has_surrogate (s : list ascii) : bool :=
  match s with
  | [] => false
  | b0 :: r =>
      match r with
      | b1 :: _ => in_range 237 237 b0 && in_range 160 191 b1
      | [] => false
      end || has_surrogate r
  end.

(** The exception that writing [text] to a standard output encoded in
    strict UTF-8 raises, if it raises one.  Python's message also names
    the character and its position. *)
Definition write_fault_utf8 (text : string) : option exn :=
  if has_surrogate (list_ascii_of_string text)
  then Some (UnicodeEncodeError
               "'utf-8' codec can't encode character: surrogates not allowed")
  else None.

(** The UTF-8 form of a code point, surrogates included. *)
Definition utf8_encode (cp : N) : list ascii :=
  let byte (n : N) := ascii_of_N n in
  let cont (n : N) := byte (128 + n mod 64)%N in
  if (cp <? 128)%N then [byte cp]
  else if (cp <? 2048)%N then [byte (192 + cp / 64)%N; cont cp]
  else if (cp <? 65536)%N
       then [byte (224 + cp / 4096)%N; cont (cp / 64)%N; cont cp]
  else [byte (240 + cp / 262144)%N; cont (cp / 4096)%N; cont (cp / 64)%N;
        cont cp].

(** ** An executable decoder and [repr] for a fragment of JSON

    To run the script's model on concrete manifests, [loads] and [repr]
    are instantiated here for the documents made of [null], [true],
    [false], integers, strings, arrays and objects.  There are no floats
    in the fragment: [float] is the empty type.  On a document outside
    the fragment (a number with a fraction or an exponent, [NaN],
    [Infinity]) [loads_fragment] answers an error that says so, where
    Python decodes the document; the examples stay inside the fragment.
    Inside it the decoder follows [json.decoder] and [json.scanner] of
    Python up to 3.12; the error messages are Python's without the
    position that Python appends to them. *)

Definition quote : ascii := "034"%char.
Definition backslash : ascii := "092"%char.

(** JSON text is written with [q] for the double quote. *)
Definition q : string := String quote EmptyString.

Definition hex_digit (n : nat) : ascii :=
  ascii_of_nat (if (n <? 10)%nat then 48 + n else 87 + n).

(** [repr] of a [str]: single quotes, unless the text holds a single
    quote and no double quote; the delimiter and the backslash are
    escaped, control characters are written [\t], [\n], [\r] or [\xNN],
    a surrogate [\udNNN].  Other bytes above 127 are kept: Python also
    escapes the characters above 127 that are not printable. *)
Definition repr_char (delim c : ascii) : list ascii :=
  let n := nat_of_ascii c in
  if Ascii.eqb c delim || Ascii.eqb c backslash then [backslash; c]
  else if Ascii.eqb c "009" then [backslash; "t"%char]
  else if Ascii.eqb c "010" then [backslash; "n"%char]
  else if Ascii.eqb c "013" then [backslash; "r"%char]
  else if (n <? 32)%nat || (n =? 127)%nat
       then [backslash; "x"%char; hex_digit (n / 16); hex_digit (n mod 16)]
  else [c].

Fixpoint repr_chars (delim : ascii) (s : list ascii) : list ascii :=
  match s with
  | [] => []
  | c :: r =>
      match r with
      | b1 :: b2 :: r2 =>
          if in_range 237 237 c && in_range 160 191 b1 then
            [backslash; "u"%char; "d"%char;
             hex_digit ((nat_of_ascii b1 - 128) / 4);
             hex_digit ((nat_of_ascii b1 - 128) mod 4 * 4
                        + (nat_of_ascii b2 - 128) / 16);
             hex_digit ((nat_of_ascii b2 - 128) mod 16)]
            ++ repr_chars delim r2
          else repr_char delim c ++ repr_chars delim r
      | _ => repr_char delim c ++ repr_chars delim r
      end
  end.

Definition repr_str (s : string) : string :=
  let cs := list_ascii_of_string s in
  let delim :=
    if existsb (Ascii.eqb "'") cs && negb (existsb (Ascii.eqb quote) cs)
    then quote else "'"%char in
  string_of_list_ascii (delim :: repr_chars delim cs ++ [delim]).

(** [repr] on the values of the fragment. *)
Fixpoint repr_fragment (v : value Empty_set) : string :=
  match v with
  | VNone => "None"
  | VBool b => if b then "True" else "False"
  | VInt n => NilZero.string_of_int (Z.to_int n)
  | VFloat x => match x with end
  | VStr s => repr_str s
  | VList items => "[" +:+ String.concat ", " (map repr_fragment items) +:+ "]"
  | VDict entries =>
      "{" +:+
      String.concat ", "
        (map (λ kv, repr_str kv.1 +:+ ": " +:+ repr_fragment kv.2) entries)
      +:+ "}"
  end.

(** The result of scanning a construct at the head of the input: the
    construct and the input left, or the message of the error. *)
Inductive scanned (A : Type) : Type :=
| Scanned (a : A) (rest : list ascii)
| Failed (msg : string).

Arguments Scanned {A} a rest.
Arguments Failed {A} msg.

Definition is_ws (c : ascii) : bool :=
  existsb (Ascii.eqb c) [" "; "009"; "010"; "013"]%char.

Definition is_digit (c : ascii) : bool :=
  ((48 <=? nat_of_ascii c) && (nat_of_ascii c <=? 57))%nat.

Fixpoint skip_ws (s : list ascii) : list ascii :=
  match s with
  | c :: r => if is_ws c then skip_ws r else s
  | [] => []
  end.

(** [starts_with word s]: [s] begins with [word]. *)
Fixpoint starts_with (word s : list ascii) : bool :=
  match word, s with
  | [], _ => true
  | a :: word', c :: s' => Ascii.eqb a c && starts_with word' s'
  | _ :: _, [] => false
  end.

(** The value of a hexadecimal digit. *)
Definition hex_value (c : ascii) : option N :=
  let n := N_of_ascii c in
  if in_range 48 57 c then Some (n - 48)%N
  else if in_range 65 70 c then Some (n - 55)%N
  else if in_range 97 102 c then Some (n - 87)%N
  else None.

(** The code point written by the four digits of a [\u] escape. *)
Definition hex4 (h1 h2 h3 h4 : ascii) : option N :=
  match hex_value h1, hex_value h2, hex_value h3, hex_value h4 with
  | Some a, Some b, Some c, Some d => Some (((a * 16 + b) * 16 + c) * 16 + d)%N
  | _, _, _, _ => None
  end.

Definition is_high_surrogate (cp : N) : bool :=
  ((55296 <=? cp) && (cp <=? 56319))%N.

Definition is_low_surrogate (cp : N) : bool :=
  ((56320 <=? cp) && (cp <=? 57343))%N.

(** The body of a string literal, after its opening quote; [acc] holds
    the bytes read so far, last first.  An escaped high surrogate that
    an escaped low surrogate follows stands, with it, for one code
    point; any other escaped surrogate is kept as it is. *)
Fixpoint scan_string (s acc : list ascii) : scanned string :=
  match s with
  | [] => Failed "Unterminated string starting at"
  | c :: r =>
      if Ascii.eqb c quote then Scanned (string_of_list_ascii (rev acc)) r
      else if Ascii.eqb c backslash then
        match r with
        | e :: r' =>
            let keep (x : ascii) := scan_string r' (x :: acc) in
            if Ascii.eqb e quote then keep quote
            else if Ascii.eqb e backslash then keep backslash
            else if Ascii.eqb e "/" then keep "/"%char
            else if Ascii.eqb e "b" then keep "008"%char
            else if Ascii.eqb e "f" then keep "012"%char
            else if Ascii.eqb e "n" then keep "010"%char
            else if Ascii.eqb e "r" then keep "013"%char
            else if Ascii.eqb e "t" then keep "009"%char
            else if Ascii.eqb e "u" then
              match r' with
              | h1 :: h2 :: h3 :: h4 :: r4 =>
                  match hex4 h1 h2 h3 h4 with
                  | None => Failed "Invalid \uXXXX escape"
                  | Some cp =>
                      let alone := scan_string r4 (rev (utf8_encode cp) ++ acc) in
                      if is_high_surrogate cp then
                        match r4 with
                        | b :: u :: l1 :: l2 :: l3 :: l4 :: r10 =>
                            if Ascii.eqb b backslash && Ascii.eqb u "u" then
                              match hex4 l1 l2 l3 l4 with
                              | None => Failed "Invalid \uXXXX escape"
                              | Some cp' =>
                                  if is_low_surrogate cp' then
                                    scan_string r10
                                      (rev (utf8_encode
                                              (65536 + (cp - 55296) * 1024
                                               + (cp' - 56320))%N) ++ acc)
                                  else alone
                              end
                            else alone
                        | _ => alone
                        end
                      else alone
                  end
              | _ => Failed "Invalid \uXXXX escape"
              end
            else Failed ("Invalid \escape: " +:+ repr_str (String e EmptyString))
        | [] => Failed "Unterminated string starting at"
        end
      else if (nat_of_ascii c <? 32)%nat
           then Failed "Invalid control character at"
      else scan_string r (c :: acc)
  end.

(** The longest run of digits at the head of [s], as a number. *)
Fixpoint scan_digits (s : list ascii) (acc : Z) : Z * list ascii :=
  match s with
  | c :: r =>
      if is_digit c
      then scan_digits r (10 * acc + Z.of_nat (nat_of_ascii c - 48))
      else (acc, s)
  | [] => (acc, [])
  end.

(** The input goes on with a fraction [.d] or an exponent [e d], [e+d],
    [e-d]: the number is a float. *)
Definition float_tail (s : list ascii) : bool :=
  match s with
  | "."%char :: d :: _ => is_digit d
  | c :: d :: r =>
      (Ascii.eqb c "e" || Ascii.eqb c "E") &&
      (is_digit d ||
       ((Ascii.eqb d "+" || Ascii.eqb d "-") &&
        match r with d' :: _ => is_digit d' | [] => false end))
  | _ => false
  end.

(** An integer literal, without its sign: [0], or digits that do not
    start with [0]. *)
Definition scan_natural (s : list ascii) : scanned Z :=
  match s with
  | c :: r =>
      if negb (is_digit c) then Failed "Expecting value"
      else
        let '(n, rest) :=
          if Ascii.eqb c "0" then (0%Z, r) else scan_digits s 0 in
        if float_tail rest
        then Failed "a number with a fraction or an exponent, outside the fragment"
        else Scanned n rest
  | [] => Failed "Expecting value"
  end.

Definition scan_number (s : list ascii) : scanned Z :=
  match s with
  | "-"%char :: r =>
      match scan_natural r with
      | Scanned n rest => Scanned (- n)%Z rest
      | Failed msg => Failed msg
      end
  | _ => scan_natural s
  end.

(** The constants that Python accepts beyond JSON. *)
Definition is_float_constant (s : list ascii) : bool :=
  existsb (λ word, starts_with (list_ascii_of_string word) s)
          ["NaN"; "Infinity"; "-Infinity"].

(** The decoder proper; [fuel] bounds the depth of the recursion, and
    every call consumes input. *)
Fixpoint scan_value (fuel : nat) (s : list ascii)
  : scanned (value Empty_set) :=
  match fuel with
  | O => Failed "out of fuel"
  | S fuel' =>
      match s with
      | [] => Failed "Expecting value"
      | c :: r =>
          if Ascii.eqb c quote then
            match scan_string r [] with
            | Scanned str r' => Scanned (VStr str) r'
            | Failed msg => Failed msg
            end
          else if Ascii.eqb c "{" then
            match skip_ws r with
            | "}"%char :: r' => Scanned (VDict []) r'
            | r' => scan_members fuel' r' []
            end
          else if Ascii.eqb c "[" then
            match skip_ws r with
            | "]"%char :: r' => Scanned (VList []) r'
            | r' => scan_items fuel' r' []
            end
          else if starts_with (list_ascii_of_string "null") s
               then Scanned VNone (drop 4 s)
          else if starts_with (list_ascii_of_string "true") s
               then Scanned (VBool true) (drop 4 s)
          else if starts_with (list_ascii_of_string "false") s
               then Scanned (VBool false) (drop 5 s)
          else if is_float_constant s
               then Failed "NaN or Infinity, outside the fragment"
          else
            match scan_number s with
            | Scanned n r' => Scanned (VInt n) r'
            | Failed msg => Failed msg
            end
      end
  end
with scan_items (fuel : nat) (s : list ascii) (acc : list (value Empty_set))
  : scanned (value Empty_set) :=
  match fuel with
  | O => Failed "out of fuel"
  | S fuel' =>
      match scan_value fuel' s with
      | Failed msg => Failed msg
      | Scanned v r =>
          match skip_ws r with
          | "]"%char :: r' => Scanned (VList (rev (v :: acc))) r'
          | ","%char :: r' => scan_items fuel' (skip_ws r') (v :: acc)
          | _ => Failed "Expecting ',' delimiter"
          end
      end
  end
with scan_members (fuel : nat) (s : list ascii)
    (acc : list (string * value Empty_set))
  : scanned (value Empty_set) :=
  match fuel with
  | O => Failed "out of fuel"
  | S fuel' =>
      match s with
      | c :: r =>
          if negb (Ascii.eqb c quote)
          then Failed "Expecting property name enclosed in double quotes"
          else
            match scan_string r [] with
            | Failed msg => Failed msg
            | Scanned key r1 =>
                match skip_ws r1 with
                | ":"%char :: r2 =>
                    match scan_value fuel' (skip_ws r2) with
                    | Failed msg => Failed msg
                    | Scanned v r3 =>
                        let acc' := dict_set key v acc in
                        match skip_ws r3 with
                        | "}"%char :: r4 => Scanned (VDict acc') r4
                        | ","%char :: r4 =>
                            scan_members fuel' (skip_ws r4) acc'
                        | _ => Failed "Expecting ',' delimiter"
                        end
                    end
                | _ => Failed "Expecting ':' delimiter"
                end
            end
      | [] => Failed "Expecting property name enclosed in double quotes"
      end
  end.

(** [json.loads] on the fragment. *)
Definition loads_fragment (text : string) : outcome (value Empty_set) :=
  let s := skip_ws (list_ascii_of_string text) in
  if starts_with (utf8_encode 65279) (list_ascii_of_string text)
  then Raised (JSONDecodeError "Unexpected UTF-8 BOM (decode using utf-8-sig)")
  else
  match scan_value (2 * String.length text + 2) s with
  | Scanned v rest =>
      match skip_ws rest with
      | [] => Returned v
      | _ :: _ => Raised (JSONDecodeError "Extra data")
      end
  | Failed msg => Raised (JSONDecodeError msg)
  end.

(** ** Sample workspaces *)

(** A regular file that reads as [text]. *)
Definition text_file (text : string) : node := Regular (Returned text).

(** A regular file with the bytes [data], read under a UTF-8 locale. *)
Definition file_of_bytes (data : string) : node := Regular (read_utf8 data).

(** The manifest [{"name": "<name>"}]. *)
Definition manifest_named (name : string) : string :=
  "{" +:+ q +:+ "name" +:+ q +:+ ": " +:+ q +:+ name +:+ q +:+ "}".

(** The manifest [{"name": null}]. *)
Definition manifest_null_name : string :=
  "{" +:+ q +:+ "name" +:+ q +:+ ": null}".

(** The manifest [{"version": 1}], without a name. *)
Definition manifest_nameless : string :=
  "{" +:+ q +:+ "version" +:+ q +:+ ": 1}".

(** A workspace in which every manifest is an object, one is missing
    and one path holds a directory where the manifest should be. *)
Definition ws_sample : gmap string node :=
  list_to_map
    [ ("shareds/common/package.json", text_file (manifest_named "@nope/common"));
      ("shareds/cache/package.json", text_file manifest_null_name);
      ("shareds/reactive/package.json", Directory);
      ("packages/validator/package.json", text_file manifest_nameless);
      ("packages/expression/package.json",
       text_file (manifest_named "@nope/expression"));
      ("packages/pattern-matching/package.json", text_file (manifest_named ""));
      ("packages/specification/package.json",
       text_file (manifest_named "@nope/specification")) ].

(** One manifest only, holding the JSON array [[]]. *)
Definition ws_array : gmap string node :=
  list_to_map [ ("shareds/common/package.json", text_file "[]") ].

(** The text of the lone surrogate U+D800. *)
Definition lone_surrogate : string :=
  string_of_list_ascii (utf8_encode 55296).

(** The text [a], a line feed, [b]. *)
Definition two_lines : string := "a" +:+ String LF "b".

(** One manifest only, whose name is the escape of a lone surrogate:
    [{"name": "\ud800"}]. *)
Definition ws_surrogate_name : gmap string node :=
  list_to_map
    [ ("shareds/common/package.json", text_file (manifest_named "\ud800")) ].

(** One manifest only, whose name holds an escaped line feed:
    [{"name": "a\nb"}]. *)
Definition ws_newline_name : gmap string node :=
  list_to_map
    [ ("shareds/common/package.json", text_file (manifest_named "a\nb")) ].

(** Two manifests; the name of the first ends its first line like the
    line of the second: [{"name": "a|shareds/cache\nb"}], then
    [{"name": "a"}]. *)
Definition ws_echoed_line : gmap string node :=
  list_to_map
    [ ("shareds/common/package.json",
       text_file (manifest_named "a|shareds/cache\nb"));
      ("shareds/cache/package.json", text_file (manifest_named "a")) ].

(** One manifest only, with the single byte 255, which is no UTF-8. *)
Definition ws_undecodable : gmap string node :=
  list_to_map
    [ ("shareds/common/package.json",
       file_of_bytes (String "255" EmptyString)) ].

(** One manifest only, written with [CR LF] line endings. *)
Definition ws_crlf : gmap string node :=
  list_to_map
    [ ("shareds/common/package.json",
       file_of_bytes
         ("{" +:+ String CR (String LF EmptyString) +:+
          q +:+ "name" +:+ q +:+ ": " +:+ q +:+ "common" +:+ q +:+
          String CR (String LF EmptyString) +:+ "}" +:+
          String CR (String LF EmptyString))) ].

(** A truncated manifest, then a good one. *)
Definition ws_truncated_then_named : gmap string node :=
  list_to_map
    [ ("shareds/common/package.json", text_file "{");
      ("shareds/cache/package.json", text_file (manifest_named "cache")) ].

(** A good manifest, then a truncated one. *)
Definition ws_named_then_truncated : gmap string node :=
  list_to_map
    [ ("shareds/common/package.json", text_file (manifest_named "common"));
      ("shareds/cache/package.json", text_file "{") ].

(** An array, then a truncated manifest. *)
Definition ws_array_then_truncated : gmap string node :=
  list_to_map
    [ ("shareds/common/package.json", text_file "[]");
      ("shareds/cache/package.json", text_file "{") ].

(** A truncated manifest, then an array. *)
Definition ws_truncated_then_array : gmap string node :=
  list_to_map
    [ ("shareds/common/package.json", text_file "{");
      ("shareds/cache/package.json", text_file "[]") ].

(** A good manifest, then an array. *)
Definition ws_named_then_array : gmap string node :=
  list_to_map
    [ ("shareds/common/package.json", text_file (manifest_named "common"));
      ("shareds/cache/package.json", text_file "[]") ].

(** The two-entry scenarios: only [a], or only [b], has a manifest. *)
Definition ws_only_a : gmap string node :=
  list_to_map [ ("a/package.json", text_file (manifest_named "pkg-a")) ].

Definition ws_only_b : gmap string node :=
  list_to_map [ ("b/package.json", text_file (manifest_named "pkg-b")) ].

(** The sample workspace with files that are no manifest of the list. *)
Definition ws_sample_and_more : gmap string node :=
  <["README.md" := text_file "docs"]>
    (<["shareds/common/src" := Directory]>
       (<["packages/other/package.json" := text_file "{"]> ws_sample)).

(** A good manifest, a truncated one, and a further manifest behind
    it. *)
Definition ws_named_truncated_named : gmap string node :=
  <["shareds/async/package.json" := text_file (manifest_named "async")]>
    ws_named_then_truncated.

(** Files and directories, but no manifest of the list. *)
Definition ws_no_manifest : gmap string node :=
  list_to_map
    [ ("README.md", text_file "docs");
      ("shareds/common/package.json", Directory);
      ("shareds/common/index.js", text_file "export {}");
      ("packages/other/package.json", text_file (manifest_named "other")) ].

(** ** The script *)

(** Lines 8-17. *)
Definition ORDERED_PATHS : list string :=
  [ "shareds/common";
    "shareds/cache";
    "shareds/async";
    "shareds/reactive";
    "packages/validator";
    "packages/expression";
    "packages/pattern-matching";
    "packages/specification" ].

(** [Path(rel) / "package.json"], as text.  The plain join is what
    [pathlib] yields for a non-empty [rel] without a trailing or a doubled
    separator, which is the shape of every entry of [ORDERED_PATHS]. *)
Definition pkg_json (rel : string) : string := rel +:+ "/package.json".

(** [Path.is_file]: true exactly for a regular file; a missing path and
    a directory both answer [False]. *)
Definition is_file (path : string) : M bool :=
  λ w, (w, Returned match files w !! path with
                    | Some (Regular _) => true
                    | _ => false
                    end).

(** [Path.read_text]: the text of a regular file, or the exception
    that decoding it raises. *)
Definition read_text (path : string) : M string :=
  λ w, match files w !! path with
       | Some (Regular (Returned text)) => (w, Returned text)
       | Some (Regular (Raised e)) => (w, Raised e)
       | Some Directory => (w, Raised (IsADirectoryError path))
       | None => (w, Raised (FileNotFoundError path))
       end.

(** Reading the module global [ORDERED_PATHS]. *)
Definition load_global_ORDERED_PATHS : M (list string) :=
  λ w, (w, Returned (ordered_paths w)).

(** [for x in xs: body(x)]; [continue] is the body returning early. *)
Fixpoint for_each {A} (body : A → M unit) (xs : list A) : M unit :=
  match xs with
  | [] => ret tt
  | x :: rest => body x;; for_each body rest
  end.

Section Script.

Context {float : Type}.

(** [json.loads], from the interpreter's library: the decoded value,
    or the exception the decoder raises. *)
Variable loads : string → outcome (value float).

(** The built-in [repr], from the interpreter. *)
Variable repr : value float → string.

(** The text layer of standard output, from the interpreter: the
    exception that writing a text raises, if it raises one
    ([UnicodeEncodeError] when the encoding of the stream has no form
    for a character of the text). *)
Variable write_fault : string → option exn.

(** [print(line)]: the text is written, then a line feed; when the text
    cannot be written nothing is, and the exception is raised. *)
Definition print (line : string) : M unit :=
  λ w, match write_fault line with
       | Some e => (w, Raised e)
       | None =>
           (World (files w) (ordered_paths w) (stdout w ++ [line]),
            Returned tt)
       end.

Definition json_loads (text : string) : M (value float) :=
  λ w, (w, loads text).

(** The exception for an object without the method [get]. *)
Definition no_get (data : value float) : exn :=
  AttributeError ("'" +:+ type_name data +:+ "' object has no attribute 'get'").

(** [data.get("name", rel)]: only a [dict] has the method. *)
Definition get (data : value float) (key : string) (default : value float)
  : M (value float) :=
  match data with
  | VDict entries => ret (dict_get entries key default)
  | _ => raise (no_get data)
  end.

(** [format(v, "")], the conversion an f-string field applies: a
    [str] is itself; each other type above falls back on [repr]. *)
Definition format_value (v : value float) : string :=
  match v with
  | VStr s => s
  | _ => repr v
  end.

(** [f"{name}|{rel}"] *)
Definition fstring (name : value float) (rel : string) : string :=
  format_value name +:+ "|" +:+ rel.

(** Lines 21-26, the body of the loop. *)
Definition body (rel : string) : M unit :=
  file ← is_file (pkg_json rel);
  if negb file then ret tt
  else
    text ← read_text (pkg_json rel);
    data ← json_loads text;
    name ← get data "name" (VStr rel);
    print (fstring name rel).

(** Lines 19-26. *)
Definition main : M unit :=
  paths ← load_global_ORDERED_PATHS;
  for_each body paths.

(** The state in which [main] is called at line 29: the module body
    has bound the global, nothing has been printed. *)
Definition boot (fs : gmap string node) : world :=
  World fs ORDERED_PATHS [].

(** A run of the script on a file system. *)
Definition run (fs : gmap string node) : world * outcome unit :=
  main (boot fs).

(** The process exit status: 0 when [main] returns, 1 when an
    exception leaves it uncaught. *)
Definition exit_status (r : world * outcome unit) : Z :=
  match r.2 with
  | Returned _ => 0
  | Raised _ => 1
  end.

(** ** What one round of the loop, and the whole loop, come to

    [step], [line_of] and [trace] are read off the code above and are
    proved below to agree with it; they name the quantities the
    properties speak about. *)

(** The round for [rel] on file system [fs]: it raises, or it returns
    having printed a line or nothing. *)
Definition step (fs : gmap string node) (rel : string)
  : outcome (option string) :=
  match fs !! pkg_json rel with
  | Some (Regular (Returned text)) =>
      match loads text with
      | Raised e => Raised e
      | Returned (VDict entries) =>
          let line := fstring (dict_get entries "name" (VStr rel)) rel in
          match write_fault line with
          | Some e => Raised e
          | None => Returned (Some line)
          end
      | Returned data => Raised (no_get data)
      end
  | Some (Regular (Raised e)) => Raised e
  | _ => Returned None
  end.

(** The line that the round for [rel] prints, if it prints one. *)
Definition line_of (fs : gmap string node) (rel : string) : option string :=
  match step fs rel with
  | Returned line => line
  | Raised _ => None
  end.

(** The lines printed by the loop over [paths], and how it ends. *)
Fixpoint trace (fs : gmap string node) (paths : list string)
  : list string * outcome unit :=
  match paths with
  | [] => ([], Returned tt)
  | rel :: rest =>
      match step fs rel with
      | Raised e => ([], Raised e)
      | Returned None => trace fs rest
      | Returned (Some line) => (line :: (trace fs rest).1, (trace fs rest).2)
      end
  end.

(** [is_regular fs rel]: [rel] has a manifest that is a regular file. *)
Definition is_regular (fs : gmap string node) (rel : string) : bool :=
  match fs !! pkg_json rel with
  | Some (Regular _) => true
  | _ => false
  end.

(** The text after the last [|] of a line, if the line has a [|]: the
    path that a printed line [name|path] is about. *)
Fixpoint tail_after_bar (s : string) : option string :=
  match s with
  | EmptyString => None
  | String c r =>
      match tail_after_bar r with
      | Some t => Some t
      | None => if Ascii.eqb c "|" then Some r else None
      end
  end.

(** [line] occurs exactly once in [lines]. *)
Definition occurs_once (line : string) (lines : list string) : Prop :=
  ∃ before after,
    lines = before ++ line :: after ∧ (line ∉ before) ∧ (line ∉ after).

(** Every manifest of the fixed list that is a regular file reads as a
    text that decodes to an object. *)
Definition objects_only (fs : gmap string node) : Prop :=
  ∀ rel content, rel ∈ ORDERED_PATHS →
    fs !! pkg_json rel = Some (Regular content) →
    ∃ text entries,
      content = Returned text ∧ loads text = Returned (VDict entries).

(** Every manifest of the fixed list that is a regular file reads as a
    text that is decoded without an error. *)
Definition decodable_only (fs : gmap string node) : Prop :=
  ∀ rel content, rel ∈ ORDERED_PATHS →
    fs !! pkg_json rel = Some (Regular content) →
    ∃ text data, content = Returned text ∧ loads text = Returned data.

(** Standard output takes every line that the manifests of the fixed
    list call for. *)
Definition writable_lines (fs : gmap string node) : Prop :=
  ∀ rel text entries, rel ∈ ORDERED_PATHS →
    fs !! pkg_json rel = Some (Regular (Returned text)) →
    loads text = Returned (VDict entries) →
    write_fault (fstring (dict_get entries "name" (VStr rel)) rel) = None.

(** No text in [records] holds a line feed. *)
Definition single_lines (records : list string) : Prop :=
  Forall (λ r, has_lf r = false) records.

(** [fs1] and [fs2] hold the same thing at the manifest path of every
    entry of [paths]. *)
Definition same_manifests (paths : list string)
    (fs1 fs2 : gmap string node) : Prop :=
  ∀ rel, rel ∈ paths → fs1 !! pkg_json rel = fs2 !! pkg_json rel.

(** ** Lines of the output *)

Lemma split_lf_single (r : string) : has_lf r = false → split_lf r = [r].
Proof.
  induction r as [|c r IH]; simpl; [done|].
  destruct (Ascii.eqb c LF); simpl; [done|]. intros H. by rewrite IH.
Qed.

Lemma output_lines_single (records : list string) :
  single_lines records → output_lines records = records.
Proof.
  induction 1 as [|r rest Hr _ IH]; [done|].
  unfold output_lines in *. simpl. by rewrite (split_lf_single r Hr), IH.
Qed.

Lemma split_lf_nonempty (s : string) : split_lf s ≠ [].
Proof.
  destruct s as [|c r]; simpl; [done|].
  destruct (Ascii.eqb c LF); [done|]. by destruct (split_lf r).
Qed.

Lemma split_lf_app (r rest : string) :
  split_lf (r +:+ String LF rest) = split_lf r ++ split_lf rest.
Proof.
  induction r as [|c r IH].
  - change (split_lf (String LF rest) = [EmptyString] ++ split_lf rest).
    reflexivity.
  - change (split_lf (String c (r +:+ String LF rest))
            = split_lf (String c r) ++ split_lf rest).
    simpl. destruct (Ascii.eqb c LF).
    + by rewrite IH.
    + rewrite IH. pose proof (split_lf_nonempty r).
      by destruct (split_lf r).
Qed.

(** The lines of the stream on standard output are the lines of the
    texts printed; the stream ends with a line feed. *)
Lemma split_lf_stdout_text (records : list string) :
  split_lf (stdout_text records) = output_lines records ++ [EmptyString].
Proof.
  induction records as [|r rest IH]; [done|].
  unfold output_lines in *. simpl. by rewrite split_lf_app, IH, app_assoc.
Qed.

(** ** The monad and the loop *)

Lemma for_each_app {A} (f : A → M unit) (xs ys : list A) (w : world) :
  for_each f (xs ++ ys) w = (for_each f xs;; for_each f ys) w.
Proof.
  revert w. induction xs as [|x xs IH]; intros w; simpl.
  - reflexivity.
  - unfold mbind, M_bind, bind in *. destruct (f x w) as [w' [[]|e]]; [|reflexivity].
    apply IH.
Qed.

Lemma body_step (rel : string) (w : world) :
  body rel w =
  match step (files w) rel with
  | Returned None => (w, Returned tt)
  | Returned (Some line) =>
      (World (files w) (ordered_paths w) (stdout w ++ [line]), Returned tt)
  | Raised e => (w, Raised e)
  end.
Proof.
  unfold body, step, mbind, M_bind, bind, is_file, read_text, json_loads.
  destruct (files w !! pkg_json rel) as [[|[text|e]]|] eqn:E; simpl;
    try reflexivity; rewrite E; [|reflexivity].
  destruct (loads text) as [data|e]; [|reflexivity].
  destruct data; try reflexivity. simpl. unfold print.
  by destruct (write_fault _).
Qed.

(** The round for a manifest that decodes to an object is the [print]
    of its line. *)
Lemma body_print (rel text : string) (entries : list (string * value float))
    (w : world) :
  files w !! pkg_json rel = Some (Regular (Returned text)) →
  loads text = Returned (VDict entries) →
  body rel w = print (fstring (dict_get entries "name" (VStr rel)) rel) w.
Proof.
  intros Hfile Hloads.
  unfold body, mbind, M_bind, bind, is_file, read_text, json_loads.
  rewrite Hfile. simpl. rewrite Hfile, Hloads. reflexivity.
Qed.

Lemma for_each_trace (paths : list string) (w : world) :
  for_each body paths w =
  (World (files w) (ordered_paths w) (stdout w ++ (trace (files w) paths).1),
   (trace (files w) paths).2).
Proof.
  revert w. induction paths as [|rel rest IH]; intros w; simpl.
  - rewrite app_nil_r. by destruct w.
  - unfold mbind, M_bind, bind. rewrite body_step.
    destruct (step (files w) rel) as [[line|]|e]; simpl.
    + rewrite IH. simpl. by rewrite <- app_assoc.
    + apply IH.
    + rewrite app_nil_r. by destruct w.
Qed.

Lemma run_for_each (fs : gmap string node) :
  run fs = for_each body ORDERED_PATHS (boot fs).
Proof. reflexivity. Qed.

Lemma run_trace (fs : gmap string node) :
  run fs = (World fs ORDERED_PATHS (trace fs ORDERED_PATHS).1,
            (trace fs ORDERED_PATHS).2).
Proof. rewrite run_for_each. by rewrite for_each_trace. Qed.

Lemma trace_app (fs : gmap string node) (xs ys : list string) :
  trace fs (xs ++ ys) =
  match (trace fs xs).2 with
  | Returned _ => ((trace fs xs).1 ++ (trace fs ys).1, (trace fs ys).2)
  | Raised e => ((trace fs xs).1, Raised e)
  end.
Proof.
  induction xs as [|x xs IH]; simpl.
  - by destruct (trace fs ys).
  - destruct (step fs x) as [[line|]|e]; simpl; [|exact IH|reflexivity].
    rewrite IH. by destruct (trace fs xs).2.
Qed.

Lemma trace_cons_line (fs : gmap string node) (rel line : string)
    (rest : list string) :
  step fs rel = Returned (Some line) →
  trace fs (rel :: rest) = (line :: (trace fs rest).1, (trace fs rest).2).
Proof. intros E. simpl. by rewrite E. Qed.

Lemma trace_cons_skip (fs : gmap string node) (rel : string)
    (rest : list string) :
  step fs rel = Returned None → trace fs (rel :: rest) = trace fs rest.
Proof. intros E. simpl. by rewrite E. Qed.

Lemma trace_cons_raise (fs : gmap string node) (rel : string)
    (rest : list string) (e : exn) :
  step fs rel = Raised e → trace fs (rel :: rest) = ([], Raised e).
Proof. intros E. simpl. by rewrite E. Qed.

(** Every printed line is the line of a path of the list. *)
Lemma trace_line_origin (fs : gmap string node) (paths : list string)
    (line : string) :
  line ∈ (trace fs paths).1 → ∃ rel, rel ∈ paths ∧ line_of fs rel = Some line.
Proof.
  induction paths as [|x rest IH]; simpl.
  - intros H. by apply elem_of_nil in H.
  - destruct (step fs x) as [[l|]|e] eqn:E; simpl.
    + intros [->|H]%elem_of_cons.
      * exists x. split; [left|]. unfold line_of. by rewrite E.
      * destruct (IH H) as (rel & ? & ?). exists rel. split; [by right|done].
    + intros H. destruct (IH H) as (rel & ? & ?). exists rel.
      split; [by right|done].
    + intros H. by apply elem_of_nil in H.
Qed.

(** The printed lines follow the order of the list. *)
Lemma trace_in_order (fs : gmap string node) (paths : list string) :
  ∃ rels, rels `sublist_of` paths ∧
          Forall2 (λ line rel, line_of fs rel = Some line) (trace fs paths).1 rels.
Proof.
  induction paths as [|x rest (rels & Hsub & Hall)]; simpl.
  - exists []. split; constructor.
  - destruct (step fs x) as [[l|]|e] eqn:E; simpl.
    + exists (x :: rels). split; [by constructor|].
      constructor; [|done]. unfold line_of. by rewrite E.
    + exists rels. split; [by constructor|done].
    + exists []. split; [apply sublist_nil_l|constructor].
Qed.

Lemma step_not_regular (fs : gmap string node) (rel : string) :
  is_regular fs rel = false ↔ step fs rel = Returned None.
Proof.
  unfold is_regular, step.
  destruct (fs !! pkg_json rel) as [[|[text|e]]|]; try done.
  split; [done|]. destruct (loads text) as [[]|]; try done.
  by destruct (write_fault _).
Qed.

(** When no round raises, every path with a regular manifest gives a
    line. *)
Lemma trace_returned_length (fs : gmap string node) (paths : list string) :
  (trace fs paths).2 = Returned tt →
  length (trace fs paths).1 = length (filter (λ rel, is_regular fs rel) paths).
Proof.
  induction paths as [|x rest IH]; simpl; [done|].
  destruct (is_regular fs x) eqn:R.
  - rewrite filter_cons_True by (by apply Is_true_true).
    destruct (step fs x) as [[line|]|e] eqn:E; simpl.
    + intros H. by rewrite IH.
    + apply step_not_regular in E. congruence.
    + done.
  - rewrite filter_cons_False by (by apply Is_true_false).
    apply step_not_regular in R. by rewrite R.
Qed.

(** A printed line ends with [|] and its path. *)
Lemma tail_after_bar_app (name rel : string) :
  tail_after_bar rel = None → tail_after_bar (name +:+ "|" +:+ rel) = Some rel.
Proof.
  intros H. induction name as [|c name IH].
  - change (tail_after_bar (String "|" rel) = Some rel). simpl. by rewrite H.
  - change (tail_after_bar (String c (name +:+ "|" +:+ rel)) = Some rel).
    simpl. by rewrite IH.
Qed.

(** What the round for [rel] prints is the line that its manifest
    calls for. *)
Lemma line_of_manifest (fs : gmap string node) (rel line : string) :
  line_of fs rel = Some line →
  ∃ text entries,
    fs !! pkg_json rel = Some (Regular (Returned text)) ∧
    loads text = Returned (VDict entries) ∧
    line = fstring (dict_get entries "name" (VStr rel)) rel ∧
    write_fault line = None.
Proof.
  unfold line_of, step.
  destruct (fs !! pkg_json rel) as [[|[text|e]]|]; try done.
  destruct (loads text) as [[]|] eqn:L; try done.
  destruct (write_fault _) eqn:W; try done.
  intros [= <-]. by exists text, entries.
Qed.

Lemma line_of_tail (fs : gmap string node) (rel line : string) :
  tail_after_bar rel = None → line_of fs rel = Some line →
  tail_after_bar line = Some rel.
Proof.
  intros Hfree (text & entries & _ & _ & -> & _)%line_of_manifest.
  by apply tail_after_bar_app.
Qed.

(** No line of the loop over [paths] is about a path outside
    [paths]. *)
Lemma trace_no_line_for (fs : gmap string node) (paths : list string)
    (rel line : string) :
  Forall (λ x, tail_after_bar x = None) paths →
  rel ∉ paths → line ∈ (trace fs paths).1 → tail_after_bar line ≠ Some rel.
Proof.
  intros Hfree Hnot Hin Htail.
  destruct (trace_line_origin _ _ _ Hin) as (x & Hx & Hline).
  rewrite Forall_forall in Hfree.
  rewrite (line_of_tail _ _ _ (Hfree x Hx) Hline) in Htail.
  by injection Htail as ->.
Qed.

(** The fixed list has no repeated entry, and no entry holds a [|]. *)
Lemma ORDERED_PATHS_NoDup : NoDup ORDERED_PATHS.
Proof. apply (bool_decide_unpack _). by vm_compute. Qed.

Lemma ORDERED_PATHS_bar_free :
  Forall (λ x, tail_after_bar x = None) ORDERED_PATHS.
Proof. repeat constructor. Qed.

Lemma ORDERED_PATHS_split (pre post : list string) (rel : string) :
  ORDERED_PATHS = pre ++ rel :: post →
  (rel ∉ pre) ∧ (rel ∉ post) ∧
  Forall (λ x, tail_after_bar x = None) pre ∧
  Forall (λ x, tail_after_bar x = None) post ∧
  tail_after_bar rel = None.
Proof.
  intros E. pose proof ORDERED_PATHS_NoDup as Hnd.
  pose proof ORDERED_PATHS_bar_free as Hfree. rewrite E in Hnd, Hfree.
  apply NoDup_app in Hnd as (_ & Hpre & [Hpost _]%NoDup_cons).
  apply Forall_app in Hfree as [Hf1 [Hf2 Hf3]%Forall_cons].
  repeat split; try done. intros H. apply (Hpre _ H). by left.
Qed.

(** The line [path|path] of an entry of the fixed list holds no line
    feed: it is one line of the output. *)
Lemma ORDERED_PATHS_own_line (rel : string) :
  rel ∈ ORDERED_PATHS →
  output_lines [rel +:+ "|" +:+ rel] = [rel +:+ "|" +:+ rel].
Proof.
  intros H. apply list_elem_of_In in H. unfold ORDERED_PATHS in H.
  simpl in H. repeat (destruct H as [<-|H]; [reflexivity|]). destruct H.
Qed.

(** ** Rounds of the loop inside a run *)

Lemma is_file_regular (rel : string) (w : world) :
  is_file (pkg_json rel) w = (w, Returned (is_regular (files w) rel)).
Proof. reflexivity. Qed.

Lemma for_each_files (paths : list string) (w : world) :
  files (for_each body paths w).1 = files w.
Proof. by rewrite for_each_trace. Qed.

Lemma for_each_result (paths : list string) (w : world) :
  (for_each body paths w).2 = (trace (files w) paths).2.
Proof. by rewrite for_each_trace. Qed.

Lemma for_each_stdout (paths : list string) (fs : gmap string node) :
  stdout (for_each body paths (boot fs)).1 = (trace fs paths).1.
Proof. by rewrite for_each_trace. Qed.

(** A round that returns without printing can be left out of the run,
    and no printed line is about its path. *)
Lemma silent_round (fs : gmap string node) (pre post : list string)
    (rel : string) :
  ORDERED_PATHS = pre ++ rel :: post →
  step fs rel = Returned None →
  (∀ w, files w = fs → body rel w = (w, Returned tt)) ∧
  run fs = for_each body (pre ++ post) (boot fs) ∧
  Forall (λ line, tail_after_bar line ≠ Some rel) (stdout (run fs).1).
Proof.
  intros Hsplit Hstep.
  assert (Hrun : run fs = for_each body (pre ++ post) (boot fs)).
  { rewrite run_for_each, Hsplit, !for_each_trace. simpl.
    rewrite !trace_app, (trace_cons_skip _ _ _ Hstep). reflexivity. }
  split; [|split; [exact Hrun|]].
  - intros w <-. rewrite body_step. by rewrite Hstep.
  - rewrite Hrun, for_each_trace. simpl. apply Forall_forall. intros line Hin.
    destruct (ORDERED_PATHS_split _ _ _ Hsplit) as (H1 & H2 & F1 & F2 & _).
    apply (trace_no_line_for fs (pre ++ post)); [|by intros [?|?]%elem_of_app|done].
    by apply Forall_app.
Qed.

(** The round for a manifest that decodes to an object is, in a run,
    one [print] between the rounds before and the rounds after. *)
Lemma printing_round (fs : gmap string node) (rel text : string)
    (entries : list (string * value float)) :
  fs !! pkg_json rel = Some (Regular (Returned text)) →
  loads text = Returned (VDict entries) →
  ∀ pre post, ORDERED_PATHS = pre ++ rel :: post →
    run fs = (for_each body pre;;
              print (fstring (dict_get entries "name" (VStr rel)) rel);;
              for_each body post) (boot fs).
Proof.
  intros Hfile Hloads pre post Hsplit.
  rewrite run_for_each, Hsplit, for_each_app. unfold mbind, M_bind, bind.
  pose proof (for_each_files pre (boot fs)) as Hfiles.
  destruct (for_each body pre (boot fs)) as [w' [[]|e]]; [|reflexivity].
  simpl in *. unfold mbind, M_bind, bind.
  rewrite (body_print rel text entries w'); [done| |done].
  by rewrite Hfiles.
Qed.

(** When the rounds before return and the line is written, the output
    of the run is theirs, then the line, then that of the rounds after,
    and the line occurs nowhere else. *)
Lemma written_round (fs : gmap string node) (pre post : list string)
    (rel line : string) :
  ORDERED_PATHS = pre ++ rel :: post →
  step fs rel = Returned (Some line) →
  (trace fs pre).2 = Returned tt →
  stdout (run fs).1 = (trace fs pre).1 ++ line :: (trace fs post).1 ∧
  (line ∉ (trace fs pre).1) ∧ (line ∉ (trace fs post).1).
Proof.
  intros Hsplit Hstep Hpre.
  destruct (ORDERED_PATHS_split _ _ _ Hsplit) as (H1 & H2 & F1 & F2 & F).
  rewrite run_trace, Hsplit, trace_app, Hpre, (trace_cons_line _ _ _ _ Hstep).
  simpl. split; [done|].
  assert (Htail : tail_after_bar line = Some rel).
  { apply (line_of_tail fs); [done|]. unfold line_of. by rewrite Hstep. }
  split; intros Hin.
  - by apply (trace_no_line_for fs pre rel _ F1 H1 Hin).
  - by apply (trace_no_line_for fs post rel _ F2 H2 Hin).
Qed.

(** A round that raises ends the run, unless an earlier round already
    has. *)
Lemma raising_round (fs : gmap string node) (pre post : list string)
    (rel : string) (e : exn) :
  ORDERED_PATHS = pre ++ rel :: post →
  step fs rel = Raised e →
  (∀ w, files w = fs → body rel w = (w, Raised e)) ∧
  (run fs).2 ≠ Returned tt ∧
  Forall (λ line, tail_after_bar line ≠ Some rel) (stdout (run fs).1) ∧
  ((for_each body pre (boot fs)).2 = Returned tt →
   run fs = ((for_each body pre (boot fs)).1, Raised e)).
Proof.
  intros Hsplit Hstep.
  assert (Htrace : trace fs ORDERED_PATHS =
                   ((trace fs pre).1,
                    match (trace fs pre).2 with
                    | Returned _ => Raised e
                    | Raised e' => Raised e'
                    end)).
  { rewrite Hsplit, trace_app, (trace_cons_raise _ _ _ _ Hstep). simpl.
    rewrite app_nil_r. by destruct (trace fs pre).2. }
  repeat split.
  - intros w <-. rewrite body_step. by rewrite Hstep.
  - rewrite run_trace, Htrace. simpl. by destruct (trace fs pre).2.
  - rewrite run_trace, Htrace. simpl. apply Forall_forall. intros line Hin.
    destruct (ORDERED_PATHS_split _ _ _ Hsplit) as (H1 & _ & F1 & _).
    by apply (trace_no_line_for fs pre).
  - rewrite run_trace, Htrace, for_each_trace. simpl. by intros ->.
Qed.

(** ** The properties of the listing *)


(** C9.  A path whose [package.json] exists but is not a regular file
    (it is a directory) is skipped exactly as a missing one: its round
    returns normally and leaves the state as it was, the run is the run
    over the list without that path, and no printed line is about it. *)
Theorem non_regular_manifest_skipped (fs : gmap string node)
    (pre post : list string) (rel : string) :
  ORDERED_PATHS = pre ++ rel :: post →
  is_Some (fs !! pkg_json rel) →
  (∀ content, fs !! pkg_json rel ≠ Some (Regular content)) →
  (∀ w, files w = fs → body rel w = (w, Returned tt)) ∧
  run fs = for_each body (pre ++ post) (boot fs) ∧
  Forall (λ line, tail_after_bar line ≠ Some rel) (stdout (run fs).1).
Proof.
  intros Hsplit _ Hnot. apply silent_round; [done|].
  unfold step. destruct (fs !! pkg_json rel) as [[|content]|] eqn:E; try done.
  by destruct (Hnot content).
Qed.

(** C3.  When the manifest of a path exists and decodes to an object
    without the key [name], the name fetched is the path itself, and
    what the round writes to standard output is the line [path|path]:
    it appends exactly that line and returns, and only if standard
    output refuses the line does it raise instead, writing nothing.  In
    a run in which the earlier rounds have returned, the output is
    theirs, then [path|path], then that of the later rounds, which do
    not hold that line.  For a path of the fixed list that text is a
    single line. *)
Theorem nameless_manifest_prints_path (fs : gmap string node)
    (rel text : string) (entries : list (string * value float)) :
  fs !! pkg_json rel = Some (Regular (Returned text)) →
  loads text = Returned (VDict entries) →
  dict_lookup "name" entries = None →
  (∀ w, get (VDict entries) "name" (VStr rel) w = (w, Returned (VStr rel))) ∧
  (∀ w, files w = fs →
     body rel w =
     match write_fault (rel +:+ "|" +:+ rel) with
     | None =>
         (World (files w) (ordered_paths w)
            (stdout w ++ [rel +:+ "|" +:+ rel]), Returned tt)
     | Some e => (w, Raised e)
     end) ∧
  (∀ pre post, ORDERED_PATHS = pre ++ rel :: post →
     (for_each body pre (boot fs)).2 = Returned tt →
     write_fault (rel +:+ "|" +:+ rel) = None →
     ∃ after,
       stdout (run fs).1
       = stdout (for_each body pre (boot fs)).1 ++ (rel +:+ "|" +:+ rel) :: after ∧
       ((rel +:+ "|" +:+ rel) ∉ stdout (for_each body pre (boot fs)).1) ∧
       ((rel +:+ "|" +:+ rel) ∉ after)) ∧
  (rel ∈ ORDERED_PATHS →
   output_lines [rel +:+ "|" +:+ rel] = [rel +:+ "|" +:+ rel]).
Proof.
  intros Hfile Hloads Hname.
  assert (Hget : dict_get entries "name" (VStr rel) = VStr rel).
  { unfold dict_get. by rewrite Hname. }
  split; [|split; [|split]]; [| | |apply ORDERED_PATHS_own_line].
  - intros w. unfold get. by rewrite Hget.
  - intros w <-. rewrite (body_print rel text entries w Hfile Hloads), Hget.
    reflexivity.
  - intros pre post Hsplit Hpre Hwrite.
    rewrite for_each_result in Hpre. rewrite for_each_stdout.
    exists (trace fs post).1. apply (written_round fs pre post rel); [done| |done].
    unfold step. rewrite Hfile, Hloads, Hget. cbn zeta.
    change (fstring (VStr rel) rel) with (rel +:+ "|" +:+ rel).
    by rewrite Hwrite.
Qed.

(** C8, as it holds.  When the manifest of a path decodes to an object
    that has the key [name], the value stored there is what is fetched,
    whatever the fallback and whatever the value's type ([None], a
    number, an empty string), and the path never takes its place.  What
    the round writes to standard output is that value as Python formats
    it, a string letter for letter, followed by [|path]: it appends
    exactly that line and returns, provided standard output takes the
    line; when it does not, the round raises and writes nothing. *)
Theorem present_name_printed (fs : gmap string node)
    (rel text : string) (entries : list (string * value float))
    (v : value float) :
  fs !! pkg_json rel = Some (Regular (Returned text)) →
  loads text = Returned (VDict entries) →
  dict_lookup "name" entries = Some v →
  (∀ default w, get (VDict entries) "name" default w = (w, Returned v)) ∧
  (∀ s, v = VStr s → format_value v = s) ∧
  (∀ w, files w = fs →
     body rel w =
     match write_fault (format_value v +:+ "|" +:+ rel) with
     | None =>
         (World (files w) (ordered_paths w)
            (stdout w ++ [format_value v +:+ "|" +:+ rel]), Returned tt)
     | Some e => (w, Raised e)
     end) ∧
  (∀ pre post, ORDERED_PATHS = pre ++ rel :: post →
     (for_each body pre (boot fs)).2 = Returned tt →
     write_fault (format_value v +:+ "|" +:+ rel) = None →
     ∃ after,
       stdout (run fs).1
       = stdout (for_each body pre (boot fs)).1
         ++ (format_value v +:+ "|" +:+ rel) :: after ∧
       ((format_value v +:+ "|" +:+ rel)
        ∉ stdout (for_each body pre (boot fs)).1) ∧
       ((format_value v +:+ "|" +:+ rel) ∉ after)).
Proof.
  intros Hfile Hloads Hname.
  assert (Hget : ∀ default, dict_get entries "name" default = v).
  { intros default. unfold dict_get. by rewrite Hname. }
  split; [|split; [|split]].
  - intros default w. unfold get. by rewrite Hget.
  - by intros s ->.
  - intros w <-. rewrite (body_print rel text entries w Hfile Hloads), Hget.
    reflexivity.
  - intros pre post Hsplit Hpre Hwrite.
    rewrite for_each_result in Hpre. rewrite for_each_stdout.
    exists (trace fs post).1. apply (written_round fs pre post rel); [done| |done].
    unfold step. rewrite Hfile, Hloads, Hget. cbn zeta.
    change (fstring v rel) with (format_value v +:+ "|" +:+ rel).
    by rewrite Hwrite.
Qed.

(** The fallback is taken when the key is absent, and only then. *)
Lemma dict_get_fallback (entries : list (string * value float))
    (key : string) (default : value float) :
  dict_lookup key entries = None → dict_get entries key default = default.
Proof. intros H. unfold dict_get. by rewrite H. Qed.

(** C7.  A run changes nothing but standard output: from any state, the
    file system and the list bound to [ORDERED_PATHS] are the same after
    [main] as before, whether [main] returns or raises, and standard
    output has only grown at its end. *)
Theorem main_only_prints (w : world) :
  files (main w).1 = files w ∧
  ordered_paths (main w).1 = ordered_paths w ∧
  ∃ lines, stdout (main w).1 = stdout w ++ lines.
Proof.
  change (main w) with (for_each body (ordered_paths w) w).
  rewrite for_each_trace. simpl. eauto.
Qed.

(** ** Runs that return, runs that raise *)

Lemma trace_returned (fs : gmap string node) (paths : list string) :
  (∀ rel content, rel ∈ paths → fs !! pkg_json rel = Some (Regular content) →
     ∃ text entries,
       content = Returned text ∧ loads text = Returned (VDict entries)) →
  (∀ rel text entries, rel ∈ paths →
     fs !! pkg_json rel = Some (Regular (Returned text)) →
     loads text = Returned (VDict entries) →
     write_fault (fstring (dict_get entries "name" (VStr rel)) rel) = None) →
  (trace fs paths).2 = Returned tt.
Proof.
  induction paths as [|x rest IH]; intros Hobj Hwrite; simpl; [done|].
  assert (Hrest : (trace fs rest).2 = Returned tt).
  { apply IH.
    - intros rel content Hin. apply Hobj. by right.
    - intros rel text entries Hin. apply Hwrite. by right. }
  unfold step. destruct (fs !! pkg_json x) as [[|content]|] eqn:E; try done.
  destruct (Hobj x content) as (text & entries & -> & Hl); [by left|done|].
  rewrite Hl. cbn zeta. rewrite (Hwrite x text entries); [done|by left|done|done].
Qed.

Lemma trace_raised (fs : gmap string node) (paths : list string) (e : exn) :
  (trace fs paths).2 = Raised e → ∃ rel, rel ∈ paths ∧ step fs rel = Raised e.
Proof.
  induction paths as [|x rest IH]; simpl; [done|].
  destruct (step fs x) as [[line|]|e'] eqn:E; simpl.
  - intros (rel & ? & ?)%IH. exists rel. split; [by right|done].
  - intros (rel & ? & ?)%IH. exists rel. split; [by right|done].
  - intros [= ->]. exists x. split; [by left|done].
Qed.

Lemma body_changes_state (line : string) (w : world) :
  (World (files w) (ordered_paths w) (stdout w ++ [line]), Returned tt)
  ≠ (w, @Returned unit tt).
Proof.
  intros [= H]. destruct w as [f g out]. simpl in H.
  injection H as H. apply (f_equal length) in H.
  rewrite length_app in H. simpl in H. lia.
Qed.

(** C1, as it holds.  The lines of a run are, in order, the lines
    written by the rounds of a subsequence of the fixed list, whatever
    the file system.  For a path of the list whose manifest exists and
    decodes to an object with a [name], when no round of an earlier path
    has raised and standard output takes the line, the text [name|path]
    is written exactly once; it is exactly one line of the output when
    no text written holds a line feed. *)
Theorem named_manifest_listed (fs : gmap string node) :
  (∃ rels, rels `sublist_of` ORDERED_PATHS ∧
     Forall2 (λ line rel, ∀ w, files w = fs →
                body rel w =
                (World (files w) (ordered_paths w) (stdout w ++ [line]),
                 Returned tt))
             (stdout (run fs).1) rels) ∧
  (∀ pre rel post text entries v,
     ORDERED_PATHS = pre ++ rel :: post →
     fs !! pkg_json rel = Some (Regular (Returned text)) →
     loads text = Returned (VDict entries) →
     dict_lookup "name" entries = Some v →
     (for_each body pre (boot fs)).2 = Returned tt →
     write_fault (format_value v +:+ "|" +:+ rel) = None →
     occurs_once (format_value v +:+ "|" +:+ rel) (stdout (run fs).1) ∧
     (single_lines (stdout (run fs).1) →
      occurs_once (format_value v +:+ "|" +:+ rel)
                  (output_lines (stdout (run fs).1)))).
Proof.
  split.
  - rewrite run_trace. cbn [fst snd stdout].
    destruct (trace_in_order fs ORDERED_PATHS) as (rels & Hsub & Hall).
    exists rels. split; [done|].
    eapply Forall2_impl; [exact Hall|]. cbn beta.
    intros line rel Hline w <-. rewrite body_step.
    unfold line_of in Hline. by destruct (step (files w) rel) as [[]|]; simplify_eq.
  - intros pre rel post text entries v Hsplit Hfile Hloads Hname Hpre Hwrite.
    rewrite for_each_result in Hpre. simpl in Hpre.
    assert (Hstep : step fs rel
                    = Returned (Some (format_value v +:+ "|" +:+ rel))).
    { unfold step. rewrite Hfile, Hloads. unfold dict_get. rewrite Hname.
      cbn zeta. change (fstring v rel) with (format_value v +:+ "|" +:+ rel).
      by rewrite Hwrite. }
    destruct (written_round fs pre post rel _ Hsplit Hstep Hpre)
      as (Hout & H1 & H2).
    assert (Honce : occurs_once (format_value v +:+ "|" +:+ rel)
                                (stdout (run fs).1)).
    { by exists (trace fs pre).1, (trace fs post).1. }
    split; [exact Honce|]. intros Hsingle.
    by rewrite (output_lines_single _ Hsingle).
Qed.

(** C4, as it holds.  When every manifest of the list that is a
    regular file decodes to an object and standard output takes every
    line, the number of texts written is the number of entries of the
    list whose manifest is a regular file; it is the number of lines of
    the output when no text written holds a line feed. *)
Theorem line_count (fs : gmap string node) :
  objects_only fs →
  writable_lines fs →
  length (stdout (run fs).1)
  = length (filter (λ rel, is_regular fs rel) ORDERED_PATHS) ∧
  (single_lines (stdout (run fs).1) →
   length (output_lines (stdout (run fs).1))
   = length (filter (λ rel, is_regular fs rel) ORDERED_PATHS)).
Proof.
  intros Hobj Hwrite.
  assert (Hlen : length (stdout (run fs).1)
                 = length (filter (λ rel, is_regular fs rel) ORDERED_PATHS)).
  { rewrite run_trace. cbn [fst snd stdout].
    apply trace_returned_length. by apply trace_returned. }
  split; [exact Hlen|]. intros Hsingle.
  by rewrite (output_lines_single _ Hsingle).
Qed.

(** C6, as it holds.  When every manifest of the list that is a regular
    file decodes to an object and standard output takes every line,
    [main] returns and the exit status is 0.  The status is never set by
    the script itself: it is non-zero only when the round of some path
    of the list raises. *)
Theorem exits_normally (fs : gmap string node) :
  (objects_only fs → writable_lines fs →
   (run fs).2 = Returned tt ∧ exit_status (run fs) = 0%Z) ∧
  (exit_status (run fs) ≠ 0%Z →
   ∃ rel e, rel ∈ ORDERED_PATHS ∧
            ∀ w, files w = fs → body rel w = (w, Raised e)).
Proof.
  unfold exit_status. rewrite run_trace. cbn [fst snd]. split.
  - intros Hobj Hwrite.
    by rewrite (trace_returned fs ORDERED_PATHS Hobj Hwrite).
  - destruct (trace fs ORDERED_PATHS).2 as [|e] eqn:E; [done|]. intros _.
    destruct (trace_raised _ _ _ E) as (rel & Hin & Hstep).
    exists rel, e. split; [done|]. intros w <-. rewrite body_step.
    by rewrite Hstep.
Qed.

(** C5, as it holds.  When the manifest of a path of the list exists
    and the decoder raises on its content, the round raises the
    decoder's exception as it is; the run never returns normally; and,
    when no round of an earlier path has raised, the run ends with that
    very exception, after the output of the earlier rounds.  The one
    case in which a round returns having done nothing is that of a
    manifest that is not a regular file. *)
Theorem malformed_manifest_propagates (fs : gmap string node)
    (pre post : list string) (rel text : string) (e : exn) :
  ORDERED_PATHS = pre ++ rel :: post →
  fs !! pkg_json rel = Some (Regular (Returned text)) →
  loads text = Raised e →
  (∀ w, files w = fs → body rel w = (w, Raised e)) ∧
  (run fs).2 ≠ Returned tt ∧
  ((for_each body pre (boot fs)).2 = Returned tt →
   run fs = ((for_each body pre (boot fs)).1, Raised e)) ∧
  (∀ w r, body r w = (w, Returned tt) ↔ is_regular (files w) r = false).
Proof.
  intros Hsplit Hfile Hloads.
  assert (Hstep : step fs rel = Raised e).
  { unfold step. by rewrite Hfile, Hloads. }
  destruct (raising_round _ _ _ _ _ Hsplit Hstep) as (Hb & Hr & _ & Hp).
  repeat split; try done.
  - rewrite body_step. intros H. apply step_not_regular.
    destruct (step (files w) r) as [[line|]|e']; try done.
    by apply body_changes_state in H.
  - intros H%step_not_regular. rewrite body_step. by rewrite H.
Qed.

(** C10, as it holds.  When the manifest of a path of the list exists
    and decodes, without error, to a value that is not an object, the
    round raises the [AttributeError] of the missing method [get] and
    prints nothing; the run never returns normally and no printed line
    is about that path; and, when no round of an earlier path has
    raised, the run ends with that [AttributeError]. *)
Theorem non_object_manifest_raises (fs : gmap string node)
    (pre post : list string) (rel text : string) (data : value float) :
  ORDERED_PATHS = pre ++ rel :: post →
  fs !! pkg_json rel = Some (Regular (Returned text)) →
  loads text = Returned data →
  (∀ entries, data ≠ VDict entries) →
  (∀ w, json_loads text w = (w, Returned data) ∧
        get data "name" (VStr rel) w = (w, Raised (no_get data))) ∧
  (∀ w, files w = fs → body rel w = (w, Raised (no_get data))) ∧
  (run fs).2 ≠ Returned tt ∧
  Forall (λ line, tail_after_bar line ≠ Some rel) (stdout (run fs).1) ∧
  ((for_each body pre (boot fs)).2 = Returned tt →
   run fs = ((for_each body pre (boot fs)).1, Raised (no_get data))).
Proof.
  intros Hsplit Hfile Hloads Hnot.
  assert (Hstep : step fs rel = Raised (no_get data)).
  { unfold step. rewrite Hfile, Hloads. destruct data; try done.
    by destruct (Hnot entries). }
  destruct (raising_round _ _ _ _ _ Hsplit Hstep) as (Hb & Hr & Hl & Hp).
  repeat split; try done.
  - unfold json_loads. by rewrite Hloads.
  - destruct data; try done. by destruct (Hnot entries).
Qed.

(** ** Further properties of the listing *)

Lemma step_ext (fs1 fs2 : gmap string node) (rel : string) :
  fs1 !! pkg_json rel = fs2 !! pkg_json rel → step fs1 rel = step fs2 rel.
Proof. unfold step. by intros ->. Qed.

Lemma trace_ext (fs1 fs2 : gmap string node) (paths : list string) :
  same_manifests paths fs1 fs2 → trace fs1 paths = trace fs2 paths.
Proof.
  induction paths as [|x rest IH]; intros Hsame; simpl; [done|].
  rewrite (step_ext fs1 fs2 x) by (apply Hsame; by left).
  rewrite IH; [done|]. intros rel Hin. apply Hsame. by right.
Qed.

Lemma trace_fault (fs : gmap string node) (pre post : list string)
    (rel : string) (e : exn) :
  step fs rel = Raised e →
  trace fs (pre ++ rel :: post)
  = ((trace fs pre).1,
     match (trace fs pre).2 with
     | Returned _ => Raised e
     | Raised e' => Raised e'
     end).
Proof.
  intros Hstep. rewrite trace_app, (trace_cons_raise _ _ _ _ Hstep). simpl.
  rewrite app_nil_r. by destruct (trace fs pre).2.
Qed.

Lemma body_raises_step (rel : string) (w : world) (e : exn) :
  (body rel w).2 = Raised e → step (files w) rel = Raised e.
Proof.
  rewrite body_step. destruct (step (files w) rel) as [[line|]|e']; try done.
  simpl. by intros [= ->].
Qed.

Lemma trace_returned_inv (fs : gmap string node) (paths : list string) :
  (trace fs paths).2 = Returned tt →
  ∀ rel content, rel ∈ paths → fs !! pkg_json rel = Some (Regular content) →
    ∃ text entries,
      content = Returned text ∧ loads text = Returned (VDict entries) ∧
      write_fault (fstring (dict_get entries "name" (VStr rel)) rel) = None.
Proof.
  induction paths as [|x rest IH]; simpl; intros Hret rel content Hin Hfile.
  - by apply elem_of_nil in Hin.
  - apply elem_of_cons in Hin as [->|Hin].
    + unfold step in Hret. rewrite Hfile in Hret.
      destruct content as [text|e]; [|done].
      destruct (loads text) as [[]|] eqn:L; try done. cbn zeta in Hret.
      destruct (write_fault _) eqn:W; [done|]. by exists text, entries.
    + apply (IH) with (rel := rel) (content := content); try done.
      by destruct (step fs x) as [[line|]|e].
Qed.

Lemma trace_NoDup (fs : gmap string node) (paths : list string) :
  NoDup paths → Forall (λ x, tail_after_bar x = None) paths →
  NoDup (trace fs paths).1.
Proof.
  induction paths as [|x rest IH]; simpl; [constructor|].
  intros [Hx Hnd]%NoDup_cons [Hfx Hfree]%Forall_cons.
  destruct (step fs x) as [[line|]|e] eqn:E; simpl; [|by apply IH|constructor].
  apply NoDup_cons. split; [|by apply IH]. intros Hin.
  apply (trace_no_line_for fs rest x line Hfree Hx Hin).
  apply (line_of_tail fs); [done|]. unfold line_of. by rewrite E.
Qed.

Lemma trace_length_le (fs : gmap string node) (paths : list string) :
  (length (trace fs paths).1
   ≤ length (filter (λ rel, is_regular fs rel) paths))%nat.
Proof.
  induction paths as [|x rest IH]; simpl; [done|].
  destruct (is_regular fs x) eqn:R.
  - rewrite filter_cons_True by (by apply Is_true_true).
    destruct (step fs x) as [[line|]|e]; simpl; lia.
  - rewrite filter_cons_False by (by apply Is_true_false).
    apply step_not_regular in R. by rewrite R.
Qed.

Lemma trace_nothing (fs : gmap string node) (paths : list string) :
  (∀ rel, rel ∈ paths → is_regular fs rel = false) →
  trace fs paths = ([], Returned tt).
Proof.
  induction paths as [|x rest IH]; intros Hnone; simpl; [done|].
  assert (Hx : step fs x = Returned None).
  { apply step_not_regular, Hnone. by left. }
  rewrite Hx. apply IH. intros rel Hin. apply Hnone. by right.
Qed.

Lemma trace_listing (fs : gmap string node) (paths : list string) :
  (trace fs paths).2 = Returned tt →
  Forall2 (λ line rel, ∃ text entries,
             fs !! pkg_json rel = Some (Regular (Returned text)) ∧
             loads text = Returned (VDict entries) ∧
             line = fstring (dict_get entries "name" (VStr rel)) rel)
          (trace fs paths).1 (filter (λ rel, is_regular fs rel) paths).
Proof.
  induction paths as [|x rest IH]; simpl; [constructor|].
  destruct (is_regular fs x) eqn:R.
  - rewrite filter_cons_True by (by apply Is_true_true).
    destruct (step fs x) as [[line|]|e] eqn:E; simpl; [| |done].
    + intros Hret. constructor; [|by apply IH].
      destruct (line_of_manifest fs x line) as (text & entries & ? & ? & ? & _).
      { unfold line_of. by rewrite E. }
      by exists text, entries.
    + apply step_not_regular in E. congruence.
  - rewrite filter_cons_False by (by apply Is_true_false).
    apply step_not_regular in R. by rewrite R.
Qed.

Lemma append_length (s t : string) :
  String.length (s +:+ t) = String.length s + String.length t.
Proof.
  induction s as [|c s IH]; [done|].
  change (S (String.length (s +:+ t)) = S (String.length s + String.length t)).
  by rewrite IH.
Qed.

Lemma append_cancel_r (s1 s2 t : string) : s1 +:+ t = s2 +:+ t → s1 = s2.
Proof.
  revert s2. induction s1 as [|c1 s1 IH]; intros [|c2 s2] H; [done| | |].
  - apply (f_equal String.length) in H.
    rewrite !append_length in H. simpl in H. lia.
  - apply (f_equal String.length) in H.
    rewrite !append_length in H. simpl in H. lia.
  - change (String c1 (s1 +:+ t) = String c2 (s2 +:+ t)) in H.
    injection H as -> H. by rewrite (IH _ H).
Qed.

(** X1.  A run reads the manifests of the fixed list and nothing else:
    on two file systems that hold the same thing at the manifest path of
    every entry of the list, the runs print the same lines and end the
    same way. *)
Theorem run_reads_manifests_only (fs1 fs2 : gmap string node) :
  same_manifests ORDERED_PATHS fs1 fs2 →
  stdout (run fs1).1 = stdout (run fs2).1 ∧ (run fs1).2 = (run fs2).2.
Proof.
  intros Hsame. rewrite !run_trace. cbn [fst snd stdout].
  by rewrite (trace_ext fs1 fs2 ORDERED_PATHS Hsame).
Qed.

(** X2.  After a round has raised, no later manifest is looked at: when
    the round of an entry raises, two file systems that agree on the
    manifests of that entry and of the entries before it give runs with
    the same lines and the same end, whatever they hold for the entries
    after it. *)
Theorem fault_hides_later_manifests (fs1 fs2 : gmap string node)
    (pre post : list string) (rel : string) (e : exn) :
  ORDERED_PATHS = pre ++ rel :: post →
  same_manifests (pre ++ [rel]) fs1 fs2 →
  (body rel (boot fs1)).2 = Raised e →
  stdout (run fs1).1 = stdout (run fs2).1 ∧ (run fs1).2 = (run fs2).2.
Proof.
  intros Hsplit Hsame Hraise. apply body_raises_step in Hraise.
  simpl in Hraise.
  assert (Hrel : step fs2 rel = Raised e).
  { rewrite <- (step_ext fs1 fs2 rel); [done|].
    apply Hsame, elem_of_app. right. by left. }
  assert (Hpre : trace fs1 pre = trace fs2 pre).
  { apply trace_ext. intros x Hin. apply Hsame, elem_of_app. by left. }
  rewrite !run_trace, Hsplit. cbn [fst snd stdout].
  rewrite (trace_fault fs1 pre post rel e Hraise).
  rewrite (trace_fault fs2 pre post rel e Hrel). by rewrite Hpre.
Qed.

(** X3.  [main] returns exactly when every manifest of the fixed list
    that is a regular file reads as a text that decodes to an object,
    and standard output takes the line of each. *)
Theorem returns_iff_objects_written (fs : gmap string node) :
  (run fs).2 = Returned tt ↔ objects_only fs ∧ writable_lines fs.
Proof.
  rewrite run_trace. cbn [snd]. split.
  - intros Hret. split.
    + intros rel content Hin Hfile.
      destruct (trace_returned_inv fs _ Hret rel content Hin Hfile)
        as (text & entries & ? & ? & _).
      by exists text, entries.
    + intros rel text entries Hin Hfile Hloads.
      destruct (trace_returned_inv fs _ Hret rel _ Hin Hfile)
        as (text' & entries' & [= <-] & Hl & Hw).
      rewrite Hloads in Hl. by simplify_eq.
  - intros [Hobj Hwrite]. by apply trace_returned.
Qed.

(** X4.  An exception that leaves [main] comes from a manifest of the
    list that is a regular file, and is one of four: the one raised on
    reading the file as text, the one the decoder raises on the text,
    the [AttributeError] for a decoded value that is not an object, the
    one standard output raises on the line.  The guard on [is_file]
    keeps [read_text] from being called on a missing path or on a
    directory. *)
Theorem fault_origin (fs : gmap string node) (e : exn) :
  (run fs).2 = Raised e →
  ∃ rel content,
    rel ∈ ORDERED_PATHS ∧ fs !! pkg_json rel = Some (Regular content) ∧
    (content = Raised e ∨
     ∃ text, content = Returned text ∧
       (loads text = Raised e ∨
        (∃ data, loads text = Returned data ∧
                 (∀ entries, data ≠ VDict entries) ∧ e = no_get data) ∨
        (∃ entries, loads text = Returned (VDict entries) ∧
                    write_fault (fstring (dict_get entries "name" (VStr rel)) rel)
                    = Some e))).
Proof.
  rewrite run_trace. cbn [snd]. intros (rel & Hin & Hstep)%trace_raised.
  unfold step in Hstep.
  destruct (fs !! pkg_json rel) as [[|content]|] eqn:E; try done.
  exists rel, content. split; [done|]. split; [done|].
  destruct content as [text|e']; [|left; by injection Hstep as ->].
  right. exists text. split; [done|].
  destruct (loads text) as [data|e'] eqn:L; [|left; by injection Hstep as ->].
  right. destruct data;
    try (left; eexists; split; [done|]; split; [done|by injection Hstep as <-]).
  right. exists entries. split; [done|]. cbn zeta in Hstep.
  destruct (write_fault _); [by injection Hstep as ->|done].
Qed.

(** X5.  No two [print] calls of a run write the same text, whatever
    the file system and whatever the names in the manifests; so, when no
    text written holds a line feed, no line of the output occurs
    twice. *)
Theorem output_lines_distinct (fs : gmap string node) :
  NoDup (stdout (run fs).1) ∧
  (single_lines (stdout (run fs).1) →
   NoDup (output_lines (stdout (run fs).1))).
Proof.
  assert (Hnd : NoDup (stdout (run fs).1)).
  { rewrite run_trace. cbn [fst stdout].
    apply trace_NoDup; [apply ORDERED_PATHS_NoDup|apply ORDERED_PATHS_bar_free]. }
  split; [exact Hnd|]. intros Hsingle.
  by rewrite (output_lines_single _ Hsingle).
Qed.

(** X6.  In every run, also one that ends with an exception, the number
    of [print] calls that write their text is at most the number of
    entries of the list whose manifest is a regular file, hence at most
    eight; so is the number of lines of the output when no text written
    holds a line feed. *)
Theorem line_count_bound (fs : gmap string node) :
  (length (stdout (run fs).1)
   ≤ length (filter (λ rel, is_regular fs rel) ORDERED_PATHS))%nat ∧
  (length (stdout (run fs).1) ≤ 8)%nat ∧
  (single_lines (stdout (run fs).1) →
   (length (output_lines (stdout (run fs).1)) ≤ 8)%nat).
Proof.
  assert (H8 : (length (stdout (run fs).1)
                ≤ length (filter (λ rel, is_regular fs rel) ORDERED_PATHS)
                ≤ 8)%nat).
  { rewrite run_trace. cbn [fst stdout].
    pose proof (trace_length_le fs ORDERED_PATHS) as H.
    pose proof (length_filter (λ rel, is_regular fs rel) ORDERED_PATHS) as H'.
    change (length ORDERED_PATHS) with 8 in H'. lia. }
  split; [lia|]. split; [lia|]. intros Hsingle.
  rewrite (output_lines_single _ Hsingle). lia.
Qed.

(** X7.  When no entry of the list has a regular file for manifest, the
    run prints nothing and returns, whatever else the file system
    holds. *)
Theorem no_manifest_prints_nothing (fs : gmap string node) :
  (∀ rel, rel ∈ ORDERED_PATHS → is_regular fs rel = false) →
  run fs = (boot fs, Returned tt).
Proof.
  intros Hnone. rewrite run_trace. by rewrite (trace_nothing fs _ Hnone).
Qed.

(** X8.  When [main] returns, the texts written by [print] are, one for
    one and in the order of the list, those of the entries whose
    manifest is a regular file: each is the [name] of the manifest as
    Python formats it, or the entry itself when the manifest has none,
    then [|] and the entry. *)
Theorem listing_when_returned (fs : gmap string node) :
  (run fs).2 = Returned tt →
  Forall2 (λ line rel, ∃ text entries,
             fs !! pkg_json rel = Some (Regular (Returned text)) ∧
             loads text = Returned (VDict entries) ∧
             line = format_value (dict_get entries "name" (VStr rel))
                    +:+ "|" +:+ rel)
          (stdout (run fs).1)
          (filter (λ rel, is_regular fs rel) ORDERED_PATHS).
Proof.
  rewrite run_trace. cbn [fst snd stdout]. apply trace_listing.
Qed.

(** X9.  A printed line tells its entry and its name apart, even when
    the name holds a [|]: the text after the last [|] of the line is the
    entry, and two lines that are equal have the same entry and the same
    formatted name. *)
Theorem line_determines_entry_and_name (name1 name2 : value float)
    (rel1 rel2 : string) :
  rel1 ∈ ORDERED_PATHS → rel2 ∈ ORDERED_PATHS →
  tail_after_bar (fstring name1 rel1) = Some rel1 ∧
  (fstring name1 rel1 = fstring name2 rel2 →
   rel1 = rel2 ∧ format_value name1 = format_value name2).
Proof.
  intros H1 H2. pose proof ORDERED_PATHS_bar_free as Hfree.
  rewrite Forall_forall in Hfree.
  pose proof (tail_after_bar_app (format_value name1) rel1 (Hfree _ H1)) as T1.
  pose proof (tail_after_bar_app (format_value name2) rel2 (Hfree _ H2)) as T2.
  split; [exact T1|]. unfold fstring. intros Heq.
  rewrite Heq, T2 in T1. injection T1 as <-. split; [done|].
  by apply (append_cancel_r _ _ ("|" +:+ rel2)).
Qed.

End Script.

(** ** The script on the sample workspaces

    The properties above at the decoder and the [repr] of the fragment
    and at a standard output in strict UTF-8, on the sample workspaces;
    and the runs in which a fault on an earlier path, a manifest that is
    not an object, a name that standard output refuses or a name that
    holds a line feed decides the outcome. *)

(** Case analysis on the entry of the fixed list a hypothesis [H]
    speaks about; [tac] closes each of the eight cases. *)
Ltac each_path H tac :=
  apply list_elem_of_In in H; unfold ORDERED_PATHS in H; simpl in H;
  repeat (destruct H as [<-|H]; [tac|]); destruct H.

(** A manifest predicate on a sample workspace: the file found at each
    entry is computed, then the witnesses. *)
Ltac settle_manifests Hin Hfile :=
  each_path Hin ltac:(vm_compute in Hfile; first
    [ discriminate Hfile
    | injection Hfile as <-; do 2 eexists;
      split; [reflexivity|vm_compute; reflexivity] ]).

Ltac settle_lines Hin Hfile Hloads :=
  each_path Hin ltac:(vm_compute in Hfile; first
    [ discriminate Hfile
    | injection Hfile as <-; vm_compute in Hloads;
      first [ discriminate Hloads
            | injection Hloads as <-; vm_compute; reflexivity ] ]).

(** The listing of the sample workspace. *)
Example run_ws_sample :
  run loads_fragment repr_fragment write_fault_utf8 ws_sample
  = (World ws_sample ORDERED_PATHS
       [ "@nope/common|shareds/common";
         "None|shareds/cache";
         "packages/validator|packages/validator";
         "@nope/expression|packages/expression";
         "|packages/pattern-matching";
         "@nope/specification|packages/specification" ],
     Returned tt).
Proof. vm_compute; reflexivity. Qed.

(** With the list [["a"; "b"]] bound to the global: the manifest of [b]
    is missing, then that of [a]. *)
Example main_only_a :
  main loads_fragment repr_fragment write_fault_utf8
       (World ws_only_a ["a"; "b"] [])
  = (World ws_only_a ["a"; "b"] ["pkg-a|a"], Returned tt).
Proof. vm_compute; reflexivity. Qed.

Example main_only_b :
  main loads_fragment repr_fragment write_fault_utf8
       (World ws_only_b ["a"; "b"] [])
  = (World ws_only_b ["a"; "b"] ["pkg-b|b"], Returned tt).
Proof. vm_compute; reflexivity. Qed.

(** An empty workspace: nothing is printed, [main] returns. *)
Example run_empty :
  run loads_fragment repr_fragment write_fault_utf8 ∅
  = (World ∅ ORDERED_PATHS [], Returned tt).
Proof. vm_compute; reflexivity. Qed.

(** A manifest with [CR LF] line endings is read with line feeds and
    listed. *)
Example run_crlf :
  stdout (run loads_fragment repr_fragment write_fault_utf8 ws_crlf).1
  = ["common|shareds/common"] ∧
  (run loads_fragment repr_fragment write_fault_utf8 ws_crlf).2 = Returned tt.
Proof. split; vm_compute; reflexivity. Qed.

(** A manifest that is no UTF-8: [read_text] raises, nothing is
    printed. *)
Example run_undecodable :
  run loads_fragment repr_fragment write_fault_utf8 ws_undecodable
  = (boot ws_undecodable,
     Raised (UnicodeDecodeError "'utf-8' codec can't decode byte")).
Proof. vm_compute; reflexivity. Qed.

(** A name that holds a line feed can make one line of the output
    occur twice, although the two texts written differ. *)
Example run_echoed_line :
  stdout (run loads_fragment repr_fragment write_fault_utf8 ws_echoed_line).1
  = [ "a|shareds/cache" +:+ String LF "b|shareds/common";
      "a|shareds/cache" ] ∧
  output_lines
    (stdout (run loads_fragment repr_fragment write_fault_utf8 ws_echoed_line).1)
  = [ "a|shareds/cache"; "b|shareds/common"; "a|shareds/cache" ].
Proof. split; vm_compute; reflexivity. Qed.

Lemma ws_sample_objects_only : objects_only loads_fragment ws_sample.
Proof. intros rel content Hin Hfile. settle_manifests Hin Hfile. Qed.

Lemma ws_sample_writable_lines :
  writable_lines loads_fragment repr_fragment write_fault_utf8 ws_sample.
Proof. intros rel text entries Hin Hfile Hloads. settle_lines Hin Hfile Hloads. Qed.

Lemma ws_array_decodable_only : decodable_only loads_fragment ws_array.
Proof. intros rel content Hin Hfile. settle_manifests Hin Hfile. Qed.

Lemma ws_surrogate_name_objects_only :
  objects_only loads_fragment ws_surrogate_name.
Proof. intros rel content Hin Hfile. settle_manifests Hin Hfile. Qed.

Lemma ws_surrogate_name_decodable_only :
  decodable_only loads_fragment ws_surrogate_name.
Proof. intros rel content Hin Hfile. settle_manifests Hin Hfile. Qed.

Lemma ws_newline_name_objects_only :
  objects_only loads_fragment ws_newline_name.
Proof. intros rel content Hin Hfile. settle_manifests Hin Hfile. Qed.

Lemma ws_newline_name_decodable_only :
  decodable_only loads_fragment ws_newline_name.
Proof. intros rel content Hin Hfile. settle_manifests Hin Hfile. Qed.

Lemma ws_newline_name_writable_lines :
  writable_lines loads_fragment repr_fragment write_fault_utf8 ws_newline_name.
Proof. intros rel text entries Hin Hfile Hloads. settle_lines Hin Hfile Hloads. Qed.


Lemma non_regular_manifest_skipped_witness :
  ws_sample !! pkg_json "shareds/reactive" = Some Directory ∧
  (∀ w, files w = ws_sample →
        body loads_fragment repr_fragment write_fault_utf8 "shareds/reactive" w
        = (w, Returned tt)) ∧
  run loads_fragment repr_fragment write_fault_utf8 ws_sample
  = for_each (body loads_fragment repr_fragment write_fault_utf8)
      (["shareds/common"; "shareds/cache"; "shareds/async"] ++
       ["packages/validator"; "packages/expression";
        "packages/pattern-matching"; "packages/specification"])
      (boot ws_sample) ∧
  Forall (λ line, tail_after_bar line ≠ Some "shareds/reactive")
         (stdout (run loads_fragment repr_fragment write_fault_utf8 ws_sample).1).
Proof.
  split; [vm_compute; reflexivity|].
  apply (non_regular_manifest_skipped loads_fragment repr_fragment
           write_fault_utf8 ws_sample
           ["shareds/common"; "shareds/cache"; "shareds/async"]
           ["packages/validator"; "packages/expression";
            "packages/pattern-matching"; "packages/specification"]
           "shareds/reactive").
  - reflexivity.
  - exists Directory. vm_compute; reflexivity.
  - intros content H. vm_compute in H. discriminate H.
Defined.

Lemma nameless_manifest_prints_path_witness :
  ws_sample !! pkg_json "packages/validator"
  = Some (Regular (Returned manifest_nameless)) ∧
  loads_fragment manifest_nameless = Returned (VDict [("version", VInt 1)]) ∧
  body loads_fragment repr_fragment write_fault_utf8 "packages/validator"
       (boot ws_sample)
  = (World ws_sample ORDERED_PATHS ["packages/validator|packages/validator"],
     Returned tt) ∧
  ∃ after,
    stdout (run loads_fragment repr_fragment write_fault_utf8 ws_sample).1
    = ["@nope/common|shareds/common"; "None|shareds/cache"]
      ++ "packages/validator|packages/validator" :: after ∧
    ("packages/validator|packages/validator" ∉ after).
Proof.
  split; [vm_compute; reflexivity|]. split; [vm_compute; reflexivity|].
  destruct (nameless_manifest_prints_path loads_fragment repr_fragment
              write_fault_utf8 ws_sample "packages/validator"
              manifest_nameless [("version", VInt 1)])
    as (_ & Hbody & Hrun & _);
    [vm_compute; reflexivity|vm_compute; reflexivity|reflexivity|].
  split; [apply (Hbody (boot ws_sample)); reflexivity|].
  destruct (Hrun ["shareds/common"; "shareds/cache"; "shareds/async";
                  "shareds/reactive"]
                 ["packages/expression"; "packages/pattern-matching";
                  "packages/specification"])
    as (after & Hout & _ & Hafter);
    [reflexivity|vm_compute; reflexivity|vm_compute; reflexivity|].
  exists after. split; [exact Hout|exact Hafter].
Defined.

Lemma present_name_printed_witness :
  ws_sample !! pkg_json "shareds/cache"
  = Some (Regular (Returned manifest_null_name)) ∧
  loads_fragment manifest_null_name = Returned (VDict [("name", VNone)]) ∧
  body loads_fragment repr_fragment write_fault_utf8 "shareds/cache"
       (boot ws_sample)
  = (World ws_sample ORDERED_PATHS ["None|shareds/cache"], Returned tt) ∧
  ∃ after,
    stdout (run loads_fragment repr_fragment write_fault_utf8 ws_sample).1
    = ["@nope/common|shareds/common"] ++ "None|shareds/cache" :: after ∧
    ("None|shareds/cache" ∉ after).
Proof.
  split; [vm_compute; reflexivity|]. split; [vm_compute; reflexivity|].
  destruct (present_name_printed loads_fragment repr_fragment
              write_fault_utf8 ws_sample "shareds/cache" manifest_null_name
              [("name", VNone)] VNone) as (_ & _ & Hbody & Hrun);
    [vm_compute; reflexivity|vm_compute; reflexivity|reflexivity|].
  split; [apply (Hbody (boot ws_sample)); reflexivity|].
  destruct (Hrun ["shareds/common"]
                 ["shareds/async"; "shareds/reactive"; "packages/validator";
                  "packages/expression"; "packages/pattern-matching";
                  "packages/specification"])
    as (after & Hout & _ & Hafter);
    [reflexivity|vm_compute; reflexivity|vm_compute; reflexivity|].
  exists after. split; [exact Hout|exact Hafter].
Defined.

Lemma named_manifest_listed_witness :
  ws_sample !! pkg_json "packages/expression"
  = Some (Regular (Returned (manifest_named "@nope/expression"))) ∧
  loads_fragment (manifest_named "@nope/expression")
  = Returned (VDict [("name", VStr "@nope/expression")]) ∧
  (for_each (body loads_fragment repr_fragment write_fault_utf8)
     ["shareds/common"; "shareds/cache"; "shareds/async"; "shareds/reactive";
      "packages/validator"] (boot ws_sample)).2 = Returned tt ∧
  write_fault_utf8 "@nope/expression|packages/expression" = None ∧
  occurs_once "@nope/expression|packages/expression"
    (stdout (run loads_fragment repr_fragment write_fault_utf8 ws_sample).1) ∧
  occurs_once "@nope/expression|packages/expression"
    (output_lines
       (stdout (run loads_fragment repr_fragment write_fault_utf8 ws_sample).1)).
Proof.
  do 4 (split; [vm_compute; reflexivity|]).
  destruct (proj2 (named_manifest_listed loads_fragment repr_fragment
                     write_fault_utf8 ws_sample)
           ["shareds/common"; "shareds/cache"; "shareds/async";
            "shareds/reactive"; "packages/validator"]
           "packages/expression"
           ["packages/pattern-matching"; "packages/specification"]
           (manifest_named "@nope/expression")
           [("name", VStr "@nope/expression")] (VStr "@nope/expression"))
    as [Honce Hlines]; try first [reflexivity|vm_compute; reflexivity].
  split; [exact Honce|]. apply Hlines.
  rewrite run_ws_sample. repeat constructor.
Defined.

Lemma line_count_witness :
  objects_only loads_fragment ws_sample ∧
  writable_lines loads_fragment repr_fragment write_fault_utf8 ws_sample ∧
  length (output_lines
            (stdout (run loads_fragment repr_fragment write_fault_utf8
                         ws_sample).1)) = 6 ∧
  length (filter (λ rel, is_regular ws_sample rel) ORDERED_PATHS) = 6.
Proof.
  split; [exact ws_sample_objects_only|].
  split; [exact ws_sample_writable_lines|].
  destruct (line_count loads_fragment repr_fragment write_fault_utf8 ws_sample
              ws_sample_objects_only ws_sample_writable_lines) as [_ H].
  split; [vm_compute; reflexivity|]. rewrite <- H; [vm_compute; reflexivity|].
  rewrite run_ws_sample. repeat constructor.
Defined.

Lemma exits_normally_witness :
  objects_only loads_fragment ws_sample ∧
  writable_lines loads_fragment repr_fragment write_fault_utf8 ws_sample ∧
  (run loads_fragment repr_fragment write_fault_utf8 ws_sample).2 = Returned tt ∧
  exit_status (run loads_fragment repr_fragment write_fault_utf8 ws_sample)
  = 0%Z.
Proof.
  split; [exact ws_sample_objects_only|].
  split; [exact ws_sample_writable_lines|].
  exact (proj1 (exits_normally loads_fragment repr_fragment write_fault_utf8
                  ws_sample)
           ws_sample_objects_only ws_sample_writable_lines).
Defined.

Lemma malformed_manifest_propagates_witness :
  ws_named_then_truncated !! pkg_json "shareds/cache"
  = Some (Regular (Returned "{")) ∧
  loads_fragment "{"
  = Raised (JSONDecodeError "Expecting property name enclosed in double quotes") ∧
  (for_each (body loads_fragment repr_fragment write_fault_utf8)
     ["shareds/common"] (boot ws_named_then_truncated)).2
  = Returned tt ∧
  run loads_fragment repr_fragment write_fault_utf8 ws_named_then_truncated
  = ((for_each (body loads_fragment repr_fragment write_fault_utf8)
        ["shareds/common"] (boot ws_named_then_truncated)).1,
     Raised (JSONDecodeError "Expecting property name enclosed in double quotes")).
Proof.
  split; [vm_compute; reflexivity|]. split; [vm_compute; reflexivity|].
  split; [vm_compute; reflexivity|].
  destruct (malformed_manifest_propagates loads_fragment repr_fragment
              write_fault_utf8
              ws_named_then_truncated ["shareds/common"]
              ["shareds/async"; "shareds/reactive"; "packages/validator";
               "packages/expression"; "packages/pattern-matching";
               "packages/specification"]
              "shareds/cache" "{" (JSONDecodeError "Expecting property name enclosed in double quotes"))
    as (_ & _ & Hrun & _);
    [reflexivity|vm_compute; reflexivity|vm_compute; reflexivity|].
  apply Hrun. vm_compute; reflexivity.
Defined.

Lemma non_object_manifest_raises_witness :
  ws_named_then_array !! pkg_json "shareds/cache"
  = Some (Regular (Returned "[]")) ∧
  loads_fragment "[]" = Returned (VList []) ∧
  (for_each (body loads_fragment repr_fragment write_fault_utf8)
     ["shareds/common"] (boot ws_named_then_array)).2
  = Returned tt ∧
  run loads_fragment repr_fragment write_fault_utf8 ws_named_then_array
  = ((for_each (body loads_fragment repr_fragment write_fault_utf8)
        ["shareds/common"] (boot ws_named_then_array)).1,
     Raised (AttributeError "'list' object has no attribute 'get'")).
Proof.
  split; [vm_compute; reflexivity|]. split; [vm_compute; reflexivity|].
  split; [vm_compute; reflexivity|].
  destruct (non_object_manifest_raises loads_fragment repr_fragment
              write_fault_utf8
              ws_named_then_array ["shareds/common"]
              ["shareds/async"; "shareds/reactive"; "packages/validator";
               "packages/expression"; "packages/pattern-matching";
               "packages/specification"]
              "shareds/cache" "[]" (VList []))
    as (_ & _ & _ & _ & Hrun);
    [reflexivity|vm_compute; reflexivity|vm_compute; reflexivity|done|].
  apply Hrun. vm_compute; reflexivity.
Defined.

(** C1 as stated fails, in three ways.  In [ws_truncated_then_named]
    the manifest of [shareds/cache] exists and decodes to an object with
    the name [cache], yet the run prints nothing: the decoder has raised
    on the manifest of [shareds/common], which comes first.  In
    [ws_surrogate_name] the manifest of [shareds/common], the first
    entry, decodes to an object whose name is a lone surrogate, and
    nothing is printed: standard output refuses the line.  In
    [ws_newline_name] the name is [a], a line feed, [b]: the text is
    written, but no line of the output is that text. *)
Lemma named_manifest_without_line :
  (ws_truncated_then_named !! pkg_json "shareds/cache"
   = Some (Regular (Returned (manifest_named "cache"))) ∧
   loads_fragment (manifest_named "cache")
   = Returned (VDict [("name", VStr "cache")]) ∧
   run loads_fragment repr_fragment write_fault_utf8 ws_truncated_then_named
   = (boot ws_truncated_then_named,
      Raised (JSONDecodeError
                "Expecting property name enclosed in double quotes")) ∧
   ¬ occurs_once "cache|shareds/cache"
       (output_lines
          (stdout (run loads_fragment repr_fragment write_fault_utf8
                       ws_truncated_then_named).1))) ∧
  (ws_surrogate_name !! pkg_json "shareds/common"
   = Some (Regular (Returned (manifest_named "\ud800"))) ∧
   loads_fragment (manifest_named "\ud800")
   = Returned (VDict [("name", VStr lone_surrogate)]) ∧
   run loads_fragment repr_fragment write_fault_utf8 ws_surrogate_name
   = (boot ws_surrogate_name,
      Raised (UnicodeEncodeError
                "'utf-8' codec can't encode character: surrogates not allowed")) ∧
   ¬ occurs_once (lone_surrogate +:+ "|shareds/common")
       (output_lines
          (stdout (run loads_fragment repr_fragment write_fault_utf8
                       ws_surrogate_name).1))) ∧
  (ws_newline_name !! pkg_json "shareds/common"
   = Some (Regular (Returned (manifest_named "a\nb"))) ∧
   loads_fragment (manifest_named "a\nb")
   = Returned (VDict [("name", VStr two_lines)]) ∧
   output_lines
     (stdout (run loads_fragment repr_fragment write_fault_utf8
                  ws_newline_name).1)
   = ["a"; "b|shareds/common"] ∧
   ¬ occurs_once (two_lines +:+ "|shareds/common")
       (output_lines
          (stdout (run loads_fragment repr_fragment write_fault_utf8
                       ws_newline_name).1))).
Proof.
  split; [|split].
  - do 3 (split; [vm_compute; reflexivity|]).
    intros (before & after & H & _). vm_compute in H. by destruct before.
  - do 3 (split; [vm_compute; reflexivity|]).
    intros (before & after & H & _). vm_compute in H. by destruct before.
  - do 3 (split; [vm_compute; reflexivity|]).
    intros (before & after & H & _). vm_compute in H.
    destruct before as [|x [|y [|z before]]]; simplify_eq.
Qed.

(** C8 as stated fails.  In [ws_surrogate_name] the manifest decodes to
    an object in which the key [name] is present, with a lone surrogate
    for value, and the value is not emitted: standard output refuses the
    line, the run ends with a [UnicodeEncodeError] and has printed
    nothing. *)
Lemma surrogate_name_not_emitted :
  ws_surrogate_name !! pkg_json "shareds/common"
  = Some (Regular (Returned (manifest_named "\ud800"))) ∧
  loads_fragment (manifest_named "\ud800")
  = Returned (VDict [("name", VStr lone_surrogate)]) ∧
  dict_lookup "name" [("name", @VStr Empty_set lone_surrogate)]
  = Some (VStr lone_surrogate) ∧
  body loads_fragment repr_fragment write_fault_utf8 "shareds/common"
       (boot ws_surrogate_name)
  = (boot ws_surrogate_name,
     Raised (UnicodeEncodeError
               "'utf-8' codec can't encode character: surrogates not allowed")) ∧
  stdout (run loads_fragment repr_fragment write_fault_utf8
              ws_surrogate_name).1 = [].
Proof. repeat split; vm_compute; reflexivity. Qed.

(** C4 as stated fails, in three ways.  In each of the three
    workspaces the one manifest that exists is decoded without error.
    In [ws_array] it is a list: no line is printed.  In
    [ws_surrogate_name] it is an object whose name standard output
    refuses: no line is printed.  In [ws_newline_name] it is an object
    whose name holds a line feed: two lines are printed. *)
Lemma manifest_count_not_line_count :
  (decodable_only loads_fragment ws_array ∧
   length (filter (λ rel, is_regular ws_array rel) ORDERED_PATHS) = 1 ∧
   length (output_lines
             (stdout (run loads_fragment repr_fragment write_fault_utf8
                          ws_array).1)) = 0) ∧
  (decodable_only loads_fragment ws_surrogate_name ∧
   objects_only loads_fragment ws_surrogate_name ∧
   length (filter (λ rel, is_regular ws_surrogate_name rel) ORDERED_PATHS) = 1 ∧
   length (output_lines
             (stdout (run loads_fragment repr_fragment write_fault_utf8
                          ws_surrogate_name).1)) = 0) ∧
  (decodable_only loads_fragment ws_newline_name ∧
   objects_only loads_fragment ws_newline_name ∧
   writable_lines loads_fragment repr_fragment write_fault_utf8
                  ws_newline_name ∧
   length (filter (λ rel, is_regular ws_newline_name rel) ORDERED_PATHS) = 1 ∧
   length (output_lines
             (stdout (run loads_fragment repr_fragment write_fault_utf8
                          ws_newline_name).1)) = 2).
Proof.
  split; [|split].
  - split; [exact ws_array_decodable_only|]. split; vm_compute; reflexivity.
  - split; [exact ws_surrogate_name_decodable_only|].
    split; [exact ws_surrogate_name_objects_only|].
    split; vm_compute; reflexivity.
  - split; [exact ws_newline_name_decodable_only|].
    split; [exact ws_newline_name_objects_only|].
    split; [exact ws_newline_name_writable_lines|].
    split; vm_compute; reflexivity.
Qed.

(** C6 as stated fails, in two ways.  In [ws_array] no manifest is
    malformed, the decoder accepts the only one, and the run ends with
    an uncaught [AttributeError], exit status 1.  In [ws_surrogate_name]
    the only manifest decodes to an object, and the run ends with an
    uncaught [UnicodeEncodeError], exit status 1. *)
Lemma well_formed_manifest_exit_status :
  (decodable_only loads_fragment ws_array ∧
   (run loads_fragment repr_fragment write_fault_utf8 ws_array).2
   = Raised (AttributeError "'list' object has no attribute 'get'") ∧
   exit_status (run loads_fragment repr_fragment write_fault_utf8 ws_array)
   = 1%Z) ∧
  (decodable_only loads_fragment ws_surrogate_name ∧
   objects_only loads_fragment ws_surrogate_name ∧
   (run loads_fragment repr_fragment write_fault_utf8 ws_surrogate_name).2
   = Raised (UnicodeEncodeError
               "'utf-8' codec can't encode character: surrogates not allowed") ∧
   exit_status (run loads_fragment repr_fragment write_fault_utf8
                    ws_surrogate_name) = 1%Z).
Proof.
  split.
  - split; [exact ws_array_decodable_only|]. split; vm_compute; reflexivity.
  - split; [exact ws_surrogate_name_decodable_only|].
    split; [exact ws_surrogate_name_objects_only|].
    split; vm_compute; reflexivity.
Qed.

(** C5 as stated fails.  In [ws_array_then_truncated] the manifest of
    [shareds/cache] exists and the decoder raises on it, yet the run
    ends with the [AttributeError] of the round of [shareds/common],
    not with the decoder's exception. *)
Lemma earlier_attribute_error_wins :
  ORDERED_PATHS
  = ["shareds/common"] ++ "shareds/cache" ::
    ["shareds/async"; "shareds/reactive"; "packages/validator";
     "packages/expression"; "packages/pattern-matching";
     "packages/specification"] ∧
  ws_array_then_truncated !! pkg_json "shareds/cache"
  = Some (Regular (Returned "{")) ∧
  loads_fragment "{"
  = Raised (JSONDecodeError "Expecting property name enclosed in double quotes") ∧
  (run loads_fragment repr_fragment write_fault_utf8 ws_array_then_truncated).2
  = Raised (AttributeError "'list' object has no attribute 'get'") ∧
  (run loads_fragment repr_fragment write_fault_utf8 ws_array_then_truncated).2
  ≠ Raised (JSONDecodeError "Expecting property name enclosed in double quotes").
Proof.
  repeat (split; [vm_compute; reflexivity|]).
  vm_compute. discriminate.
Qed.

(** C10 as stated fails.  In [ws_truncated_then_array] the manifest of
    [shareds/cache] exists and decodes to a list, yet the run ends in
    the decoder, on the manifest of [shareds/common], not with an
    [AttributeError]. *)
Lemma earlier_decode_error_wins :
  ORDERED_PATHS
  = ["shareds/common"] ++ "shareds/cache" ::
    ["shareds/async"; "shareds/reactive"; "packages/validator";
     "packages/expression"; "packages/pattern-matching";
     "packages/specification"] ∧
  ws_truncated_then_array !! pkg_json "shareds/cache"
  = Some (Regular (Returned "[]")) ∧
  loads_fragment "[]" = Returned (VList []) ∧
  (run loads_fragment repr_fragment write_fault_utf8 ws_truncated_then_array).2
  = Raised (JSONDecodeError "Expecting property name enclosed in double quotes") ∧
  (run loads_fragment repr_fragment write_fault_utf8 ws_truncated_then_array).2
  ≠ Raised (no_get (@VList Empty_set [])).
Proof.
  repeat (split; [vm_compute; reflexivity|]).
  vm_compute. discriminate.
Qed.

(** ** The further properties on the sample workspaces *)

Lemma ws_sample_and_more_same_manifests :
  same_manifests ORDERED_PATHS ws_sample ws_sample_and_more.
Proof.
  intros rel Hin. each_path Hin ltac:(vm_compute; reflexivity).
Qed.

Lemma ws_no_manifest_none_regular (rel : string) :
  rel ∈ ORDERED_PATHS → is_regular ws_no_manifest rel = false.
Proof.
  intros Hin. each_path Hin ltac:(vm_compute; reflexivity).
Qed.

Lemma run_reads_manifests_only_witness :
  ws_sample !! "README.md" ≠ ws_sample_and_more !! "README.md" ∧
  same_manifests ORDERED_PATHS ws_sample ws_sample_and_more ∧
  stdout (run loads_fragment repr_fragment write_fault_utf8 ws_sample).1
  = stdout (run loads_fragment repr_fragment write_fault_utf8
                ws_sample_and_more).1 ∧
  (run loads_fragment repr_fragment write_fault_utf8 ws_sample).2
  = (run loads_fragment repr_fragment write_fault_utf8 ws_sample_and_more).2.
Proof.
  split; [vm_compute; discriminate|].
  split; [exact ws_sample_and_more_same_manifests|].
  exact (run_reads_manifests_only loads_fragment repr_fragment write_fault_utf8
           ws_sample ws_sample_and_more ws_sample_and_more_same_manifests).
Defined.

Lemma fault_hides_later_manifests_witness :
  ws_named_then_truncated !! pkg_json "shareds/async"
  ≠ ws_named_truncated_named !! pkg_json "shareds/async" ∧
  (body loads_fragment repr_fragment write_fault_utf8 "shareds/cache"
     (boot ws_named_then_truncated)).2
  = Raised (JSONDecodeError "Expecting property name enclosed in double quotes") ∧
  stdout (run loads_fragment repr_fragment write_fault_utf8
              ws_named_then_truncated).1
  = stdout (run loads_fragment repr_fragment write_fault_utf8
                ws_named_truncated_named).1 ∧
  (run loads_fragment repr_fragment write_fault_utf8 ws_named_then_truncated).2
  = (run loads_fragment repr_fragment write_fault_utf8
         ws_named_truncated_named).2.
Proof.
  split; [vm_compute; discriminate|]. split; [vm_compute; reflexivity|].
  apply (fault_hides_later_manifests loads_fragment repr_fragment
           write_fault_utf8
           ws_named_then_truncated ws_named_truncated_named
           ["shareds/common"]
           ["shareds/async"; "shareds/reactive"; "packages/validator";
            "packages/expression"; "packages/pattern-matching";
            "packages/specification"]
           "shareds/cache"
           (JSONDecodeError "Expecting property name enclosed in double quotes")).
  - reflexivity.
  - intros rel Hin. apply list_elem_of_In in Hin. simpl in Hin.
    destruct Hin as [<-|[<-|[]]]; vm_compute; reflexivity.
  - vm_compute; reflexivity.
Defined.

Lemma returns_iff_objects_written_witness :
  (objects_only loads_fragment ws_sample ∧
   writable_lines loads_fragment repr_fragment write_fault_utf8 ws_sample) ∧
  ¬ objects_only loads_fragment ws_array ∧
  ¬ writable_lines loads_fragment repr_fragment write_fault_utf8
      ws_surrogate_name.
Proof.
  split; [|split].
  - apply (proj1 (returns_iff_objects_written loads_fragment repr_fragment
                    write_fault_utf8 ws_sample)).
    vm_compute; reflexivity.
  - intros Hobj.
    assert (H : (run loads_fragment repr_fragment write_fault_utf8 ws_array).2
                = Returned tt).
    { apply (proj2 (returns_iff_objects_written loads_fragment repr_fragment
                      write_fault_utf8 ws_array)).
      split; [exact Hobj|].
      intros rel text entries Hin Hfile Hloads.
      settle_lines Hin Hfile Hloads. }
    vm_compute in H. discriminate H.
  - intros Hwrite.
    assert (H : (run loads_fragment repr_fragment write_fault_utf8
                     ws_surrogate_name).2 = Returned tt).
    { apply (proj2 (returns_iff_objects_written loads_fragment repr_fragment
                      write_fault_utf8 ws_surrogate_name)).
      split; [exact ws_surrogate_name_objects_only|exact Hwrite]. }
    vm_compute in H. discriminate H.
Defined.

Lemma fault_origin_witness :
  (run loads_fragment repr_fragment write_fault_utf8 ws_undecodable).2
  = Raised (UnicodeDecodeError "'utf-8' codec can't decode byte") ∧
  ∃ rel content,
    rel ∈ ORDERED_PATHS ∧
    ws_undecodable !! pkg_json rel = Some (Regular content) ∧
    (content = Raised (UnicodeDecodeError "'utf-8' codec can't decode byte") ∨
     ∃ text, content = Returned text ∧
       (loads_fragment text
        = Raised (UnicodeDecodeError "'utf-8' codec can't decode byte") ∨
        (∃ data, loads_fragment text = Returned data ∧
                 (∀ entries, data ≠ VDict entries) ∧
                 UnicodeDecodeError "'utf-8' codec can't decode byte"
                 = no_get data) ∨
        (∃ entries, loads_fragment text = Returned (VDict entries) ∧
                    write_fault_utf8
                      (fstring repr_fragment
                         (dict_get entries "name" (VStr rel)) rel)
                    = Some (UnicodeDecodeError
                              "'utf-8' codec can't decode byte")))).
Proof.
  split; [vm_compute; reflexivity|].
  apply (fault_origin loads_fragment repr_fragment write_fault_utf8
           ws_undecodable).
  vm_compute; reflexivity.
Defined.

Lemma output_lines_distinct_witness :
  NoDup (output_lines
           (stdout (run loads_fragment repr_fragment write_fault_utf8
                        ws_sample).1)).
Proof.
  apply (proj2 (output_lines_distinct loads_fragment repr_fragment
                  write_fault_utf8 ws_sample)).
  rewrite run_ws_sample. repeat constructor.
Defined.

Lemma line_count_bound_witness :
  (length (output_lines
             (stdout (run loads_fragment repr_fragment write_fault_utf8
                          ws_sample).1)) ≤ 8)%nat.
Proof.
  apply (proj2 (proj2 (line_count_bound loads_fragment repr_fragment
                         write_fault_utf8 ws_sample))).
  rewrite run_ws_sample. repeat constructor.
Defined.

Lemma no_manifest_prints_nothing_witness :
  ws_no_manifest !! pkg_json "shareds/common" = Some Directory ∧
  run loads_fragment repr_fragment write_fault_utf8 ws_no_manifest
  = (boot ws_no_manifest, Returned tt).
Proof.
  split; [vm_compute; reflexivity|].
  apply (no_manifest_prints_nothing loads_fragment repr_fragment
           write_fault_utf8 ws_no_manifest).
  exact ws_no_manifest_none_regular.
Defined.

Lemma listing_when_returned_witness :
  (run loads_fragment repr_fragment write_fault_utf8 ws_sample).2
  = Returned tt ∧
  Forall2 (λ line rel, ∃ text entries,
             ws_sample !! pkg_json rel = Some (Regular (Returned text)) ∧
             loads_fragment text = Returned (VDict entries) ∧
             line = format_value repr_fragment
                      (dict_get entries "name" (VStr rel)) +:+ "|" +:+ rel)
          (stdout (run loads_fragment repr_fragment write_fault_utf8
                       ws_sample).1)
          (filter (λ rel, is_regular ws_sample rel) ORDERED_PATHS).
Proof.
  split; [vm_compute; reflexivity|].
  apply (listing_when_returned loads_fragment repr_fragment write_fault_utf8
           ws_sample).
  vm_compute; reflexivity.
Defined.

Lemma line_determines_entry_and_name_witness :
  fstring repr_fragment (VStr "a|b") "shareds/common" = "a|b|shareds/common" ∧
  tail_after_bar (fstring repr_fragment (VStr "a|b") "shareds/common")
  = Some "shareds/common".
Proof.
  split; [vm_compute; reflexivity|].
  apply (line_determines_entry_and_name repr_fragment
           (VStr "a|b") (VStr "a|b") "shareds/common" "shareds/common").
  - apply list_elem_of_In. vm_compute. left. reflexivity.
  - apply list_elem_of_In. vm_compute. left. reflexivity.
Defined.
